(** * celery.app.defaults: configuration schema and setting resolver

    A shallow embedding of [celery/app/defaults.py]: the [Option]
    descriptor and its coercion table, the [NAMESPACES] tree, the
    breadth-first [flatten], the [DEFAULTS] table, the deprecation scan
    [find_deprecated_settings] and the resolver [find].

    Conventions of the embedding.
    - Python byte strings are [string]; [str.lower] is the ASCII lowering
      of byte strings.
    - A dict whose iteration order is observed ([NAMESPACES] and its
      nested dicts, keyword arguments) is an association list in
      insertion order, the order in which the literal declares its keys;
      a dict that is only subscripted ([DEFAULTS]) is a [gmap].
    - A call that may raise returns [result]: [Ok v] or [Raise e]. *)

From Equations Require Import Equations.
From stdpp Require Import base strings list gmap.
From Stdlib Require Import ZArith Ascii Permutation Lia.

Set Warnings "-register-all".

Local Open Scope string_scope.
Local Open Scope list_scope.

(** ** Python values and exceptions *)

(** The values that occur as defaults, keyword arguments and attribute
    values.  A float is kept as its decimal literal [m * 10^e]; a
    [timedelta] by its number of days. *)
Inductive pyval : Type :=
| VNone
| VBool (b : bool)
| VInt (z : Z)
| VFloat (m e : Z)
| VStr (s : string)
| VTuple (l : list pyval)
| VList (l : list pyval)
| VDict (l : list (pyval * pyval))
| VTimedelta (days : Z).

(** Truth value of an object, as tested by [or], [and] and [if]. *)
Definition truthy (v : pyval) : bool :=
  match v with
  | VNone => false
  | VBool b => b
  | VInt z => negb (Z.eqb z 0)
  | VFloat m _ => negb (Z.eqb m 0)
  | VStr s => negb (String.eqb s "")
  | VTuple l | VList l => negb (Nat.eqb (length l) 0)
  | VDict l => negb (Nat.eqb (length l) 0)
  | VTimedelta d => negb (Z.eqb d 0)
  end.

(** [a or b] *)
Definition py_or (a b : pyval) : pyval := if truthy a then a else b.

(** Whether an object can be a dict key: lists and dicts are unhashable,
    a tuple is hashable when its members are. *)
Fixpoint hashable (v : pyval) : bool :=
  match v with
  | VList _ | VDict _ => false
  | VTuple l => forallb hashable l
  | _ => true
  end.

(** The exceptions the module meets: the two it raises or catches
    itself, and any other a builtin may raise on a plain value
    ([IndexError], [ValueError], [OverflowError]), by class name. *)
Inductive exn : Type :=
| KeyError (key : pyval)
| TypeError
| OtherError (name : string).

Inductive result (A : Type) : Type :=
| Ok (a : A)
| Raise (e : exn).
Arguments Ok {A} a.
Arguments Raise {A} e.

Definition rbind {A B} (r : result A) (k : A -> result B) : result B :=
  match r with
  | Ok a => k a
  | Raise e => Raise e
  end.

Notation "x <-- r ;; k" := (rbind r (fun x => k))
  (at level 100, r at next level, right associativity).

(** ** str.lower on byte strings *)

Definition lower_ascii (c : ascii) : ascii :=
  let n := N_of_ascii c in
  if (N.leb 65 n && N.leb n 90)%bool then ascii_of_N (n + 32) else c.

Fixpoint lower (s : string) : string :=
  match s with
  | EmptyString => EmptyString
  | String c s' => String (lower_ascii c) (lower s')
  end.

(** ** Dicts with string keys, in insertion order *)

(** [d.get(k)] *)
Fixpoint dict_get {V} (d : list (string * V)) (k : string) : option V :=
  match d with
  | [] => None
  | (k', v) :: d' => if String.eqb k' k then Some v else dict_get d' k
  end.

(** [d[k]] *)
Definition dict_getitem {V} (d : list (string * V)) (k : string) : result V :=
  match dict_get d k with
  | Some v => Ok v
  | None => Raise (KeyError (VStr k))
  end.

(** [d[k] = v]: an existing key keeps its position. *)
Fixpoint dict_set {V} (d : list (string * V)) (k : string) (v : V)
  : list (string * V) :=
  match d with
  | [] => [(k, v)]
  | (k', v') :: d' =>
      if String.eqb k' k then (k', v) :: d' else (k', v') :: dict_set d' k v
  end.

(** ** Option *)

(** The callables [to_python] can reach: the seven stored in
    [Option.typemap], and [table.__getitem__], the subscript of a plain
    value [table] that an instance holds under the name [typemap]. *)
Inductive callable : Type :=
| py_str | py_int | py_float | lambda_v | strtobool | py_dict | py_tuple
| getitem_of (table : pyval).

(** An [Option] instance: the attributes the module reads, and the other
    attributes set from keyword arguments.  [alt], [deprecate_by] and
    [remove_by] are class attributes, [None] unless set on the instance. *)
Record Option : Type := mkOption {
  opt_default : pyval;
  opt_type : pyval;
  opt_alt : pyval;
  opt_deprecate_by : pyval;
  opt_remove_by : pyval;
  opt_extra : list (string * pyval)
}.

(** [setattr(self, attr, value)] for an attribute name the instance
    stores as it is.  The names the interpreter handles itself
    ([__class__], [__dict__], [__weakref__]) are outside this model. *)
Definition setattr (o : Option) (attr : string) (value : pyval) : Option :=
  if String.eqb attr "default" then
    mkOption value (opt_type o) (opt_alt o) (opt_deprecate_by o)
             (opt_remove_by o) (opt_extra o)
  else if String.eqb attr "type" then
    mkOption (opt_default o) value (opt_alt o) (opt_deprecate_by o)
             (opt_remove_by o) (opt_extra o)
  else if String.eqb attr "alt" then
    mkOption (opt_default o) (opt_type o) value (opt_deprecate_by o)
             (opt_remove_by o) (opt_extra o)
  else if String.eqb attr "deprecate_by" then
    mkOption (opt_default o) (opt_type o) (opt_alt o) value
             (opt_remove_by o) (opt_extra o)
  else if String.eqb attr "remove_by" then
    mkOption (opt_default o) (opt_type o) (opt_alt o) (opt_deprecate_by o)
             value (opt_extra o)
  else
    mkOption (opt_default o) (opt_type o) (opt_alt o) (opt_deprecate_by o)
             (opt_remove_by o) (dict_set (opt_extra o) attr value).

(** [Option.__init__(self, default=None, *args, **kwargs)]:
<<
    self.default = default
    self.type = kwargs.get('type') or 'string'
    for attr, value in items(kwargs):
        setattr(self, attr, value)
>> *)
Definition Option_init (default : pyval) (kwargs : list (string * pyval))
  : Option :=
  let self :=
    mkOption default
             (py_or (match dict_get kwargs "type" with
                     | Some t => t
                     | None => VNone
                     end) (VStr "string"))
             VNone VNone VNone [] in
  fold_left (fun self kv => setattr self (fst kv) (snd kv)) kwargs self.

(** [Option.typemap], in keyword order. *)
Definition typemap : list (string * callable) :=
  [("string", py_str); ("int", py_int); ("float", py_float);
   ("any", lambda_v); ("bool", strtobool); ("dict", py_dict);
   ("tuple", py_tuple)].

(** [typemap[t]] for an arbitrary object [t] used as the key. *)
Definition typemap_getitem (t : pyval) : result callable :=
  match t with
  | VStr s => dict_getitem typemap s
  | _ => if hashable t then Raise (KeyError t) else Raise TypeError
  end.

Section Coercion.

(** The builtins [str], [int], [float], [dict], [tuple],
    [celery.utils.strtobool] and the subscript of plain values live
    outside this module; their behaviour on a value is a parameter.
    [any] is the module's own [lambda v: v]. *)
Variable call_builtin : callable -> pyval -> result pyval.

Definition call (f : callable) (v : pyval) : result pyval :=
  match f with
  | lambda_v => Ok v
  | _ => call_builtin f v
  end.

(** [table[key]] for a plain value [table]: scalars have no
    [__getitem__]; strings, sequences and dicts answer as the builtin
    does. *)
Definition plain_getitem (table key : pyval) : result pyval :=
  match table with
  | VNone | VBool _ | VInt _ | VFloat _ _ | VTimedelta _ => Raise TypeError
  | VStr _ | VTuple _ | VList _ | VDict _ =>
      call_builtin (getitem_of table) key
  end.

(** [self.to_python(value)], with
    [Option.to_python(self, value)]:
    [return self.typemap[self.type](value)].
    Attribute lookup goes to the instance first: a keyword stored by
    [__init__] under the name [to_python] or [typemap] shadows the
    method or the class table.  What an instance stores is a plain
    value, and no plain value is callable. *)
Definition to_python (self : Option) (value : pyval) : result pyval :=
  match dict_get (opt_extra self) "to_python" with
  | Some _ => Raise TypeError
  | None =>
      match dict_get (opt_extra self) "typemap" with
      | Some table =>
          _ <-- plain_getitem table (opt_type self) ;; Raise TypeError
      | None => f <-- typemap_getitem (opt_type self) ;; call f value
      end
  end.

End Coercion.

(** ** The namespace tree *)

(** A value of the tree: an [Option], or a nested dict of such values. *)
Inductive entry : Type :=
| EOption (o : Option)
| EDict (items : list (string * entry)).

Abbreviation tree := (list (string * entry)).

(** [is_jython] and [is_pypy]: the platform probes, here CPython. *)
Definition is_jython : bool := false.
Definition is_pypy : bool := false.

(** [sys.pypy_version_info[0:3] < (1, 5, 0)], read only on PyPy. *)
Definition pypy_older_than_1_5_0 : bool := false.

Definition DEFAULT_POOL : pyval :=
  if is_jython then VStr "threads"
  else if is_pypy then
    (if pypy_older_than_1_5_0 then VStr "solo" else VStr "prefork")
  else VStr "prefork".

Definition DEFAULT_ACCEPT_CONTENT : pyval :=
  VList [VStr "json"; VStr "pickle"; VStr "msgpack"; VStr "yaml"].

Definition DEFAULT_PROCESS_LOG_FMT : pyval :=
  VStr "[%(asctime)s: %(levelname)s/%(processName)s] %(message)s".

Definition DEFAULT_LOG_FMT : pyval :=
  VStr "[%(asctime)s: %(levelname)s] %(message)s".

Definition DEFAULT_TASK_LOG_FMT : pyval :=
  VStr ("[%(asctime)s: %(levelname)s/%(processName)s] " +:+
        "%(task_name)s[%(task_id)s]: %(message)s").

(** [Option(default, **kwargs)] as a value of the tree, and the keyword
    [type=t]. *)
Abbreviation Opt d kw := (EOption (Option_init d kw)) (only parsing).
Definition kw_type (t : string) : string * pyval := ("type", VStr t).

Definition NAMESPACES : tree :=
  [
   ("accept_content", Opt DEFAULT_ACCEPT_CONTENT [kw_type "list"]);
   ("admins", Opt (VTuple []) [kw_type "tuple"]);
   ("enable_utc", Opt (VBool true) [kw_type "bool"]);
   ("imports", Opt (VTuple []) [kw_type "tuple"]);
   ("include", Opt (VTuple []) [kw_type "tuple"]);
   ("server_email", Opt (VStr "celery@localhost") []);
   ("timezone", Opt VNone [kw_type "string"]);
   ("beat", EDict
     [
      ("schedule", Opt (VDict []) [kw_type "dict"]);
      ("scheduler", Opt (VStr "celery.beat:PersistentScheduler") []);
      ("schedule_filename", Opt (VStr "celerybeat-schedule") []);
      ("sync_every", Opt (VInt 0) [kw_type "int"]);
      ("max_loop_interval", Opt (VInt 0) [kw_type "float"])
     ]);
   ("broker", EDict
     [
      ("url", Opt VNone [kw_type "string"]);
      ("connection_timeout", Opt (VInt 4) [kw_type "float"]);
      ("connection_retry", Opt (VBool true) [kw_type "bool"]);
      ("connection_max_retries", Opt (VInt 100) [kw_type "int"]);
      ("failover_strategy", Opt VNone [kw_type "string"]);
      ("heartbeat", Opt VNone [kw_type "int"]);
      ("heartbeat_checkrate", Opt (VFloat 30 (-1)) [kw_type "int"]);
      ("login_method", Opt VNone [kw_type "string"]);
      ("pool_limit", Opt (VInt 10) [kw_type "int"]);
      ("use_ssl", Opt (VBool false) [kw_type "bool"]);
      ("transport", Opt VNone [kw_type "string"]);
      ("transport_options", Opt (VDict []) [kw_type "dict"]);
      ("host", Opt VNone [kw_type "string"]);
      ("port", Opt VNone [kw_type "int"]);
      ("user", Opt VNone [kw_type "string"]);
      ("password", Opt VNone [kw_type "string"]);
      ("vhost", Opt VNone [kw_type "string"])
     ]);
   ("cache", EDict
     [
      ("backend", Opt VNone []);
      ("backend_options", Opt (VDict []) [kw_type "dict"])
     ]);
   ("cassandra", EDict
     [
      ("column_family", Opt VNone [kw_type "string"]);
      ("detailed_mode", Opt (VBool false) [kw_type "bool"]);
      ("keyspace", Opt VNone [kw_type "string"]);
      ("read_consistency", Opt VNone [kw_type "string"]);
      ("servers", Opt VNone [kw_type "list"]);
      ("port", Opt VNone [kw_type "string"]);
      ("entry_ttl", Opt VNone [kw_type "float"]);
      ("write_consistency", Opt VNone [kw_type "string"])
     ]);
   ("chord", EDict
     [
      ("propagates", Opt (VBool true) [kw_type "bool"])
     ]);
   ("couchbase", EDict
     [
      ("backend_settings", Opt VNone [kw_type "dict"])
     ]);
   ("email", EDict
     [
      ("host", Opt (VStr "localhost") []);
      ("port", Opt (VInt 25) [kw_type "int"]);
      ("host_user", Opt VNone []);
      ("host_password", Opt VNone []);
      ("timeout", Opt (VInt 2) [kw_type "float"]);
      ("use_ssl", Opt (VBool false) [kw_type "bool"]);
      ("use_tls", Opt (VBool false) [kw_type "bool"]);
      ("charset", Opt (VStr "us-ascii") [])
     ]);
   ("mongodb", EDict
     [
      ("backend_settings", Opt VNone [kw_type "dict"])
     ]);
   ("event", EDict
     [
      ("serializer", Opt (VStr "json") []);
      ("queue_expires", Opt (VFloat 600 (-1)) [kw_type "float"]);
      ("queue_ttl", Opt (VFloat 50 (-1)) [kw_type "float"])
     ]);
   ("redis", EDict
     [
      ("db", Opt VNone [kw_type "int"]);
      ("host", Opt VNone [kw_type "string"]);
      ("max_connections", Opt VNone [kw_type "int"]);
      ("password", Opt VNone [kw_type "string"]);
      ("port", Opt VNone [kw_type "int"])
     ]);
   ("result", EDict
     [
      ("backend", Opt VNone [kw_type "string"]);
      ("cache_max", Opt (VInt 100) [kw_type "int"]);
      ("compression", Opt VNone [kw_type "str"]);
      ("exchange", Opt (VStr "celeryresults") []);
      ("exchange_type", Opt (VStr "direct") []);
      ("persistent", Opt VNone [kw_type "bool"]);
      ("expires", Opt (VTimedelta 1) [kw_type "float"]);
      ("serializer", Opt (VStr "json") [])
     ]);
   ("riak", EDict
     [
      ("backend_settings", Opt VNone [kw_type "dict"])
     ]);
   ("security", EDict
     [
      ("key", Opt VNone [kw_type "string"]);
      ("certificate", Opt VNone [kw_type "string"]);
      ("cert_store", Opt VNone [kw_type "string"])
     ]);
   ("sqlalchemy", EDict
     [
      ("short_lived_sessions", Opt (VBool false) [kw_type "bool"]);
      ("table_names", Opt VNone [kw_type "dict"]);
      ("dburi", Opt VNone []);
      ("engine_options", Opt VNone [kw_type "dict"])
     ]);
   ("task", EDict
     [
      ("acks_late", Opt (VBool false) [kw_type "bool"]);
      ("always_eager", Opt (VBool false) [kw_type "bool"]);
      ("annotations", Opt VNone [kw_type "any"]);
      ("create_missing_queues", Opt (VBool true) [kw_type "bool"]);
      ("default_rate_limit", Opt VNone [kw_type "string"]);
      ("default_routing_key", Opt (VStr "celery") []);
      ("default_queue", Opt (VStr "celery") []);
      ("default_exchange", Opt (VStr "celery") []);
      ("default_exchange_type", Opt (VStr "direct") []);
      ("default_delivery_mode", Opt (VInt 2) [kw_type "string"]);
      ("eager_propagates_exceptions", Opt (VBool false) [kw_type "bool"]);
      ("ignore_result", Opt (VBool false) [kw_type "bool"]);
      ("compression", Opt VNone [kw_type "string"]);
      ("reject_on_worker_lost", Opt VNone [kw_type "bool"]);
      ("routes", Opt VNone [kw_type "any"]);
      ("send_error_emails", Opt (VBool false) [kw_type "bool"]);
      ("send_sent_event", Opt (VBool false) [kw_type "bool"]);
      ("store_errors_even_if_ignored", Opt (VBool false) [kw_type "bool"]);
      ("protocol", Opt (VInt 1) [kw_type "int"]);
      ("publish_retry", Opt (VBool true) [kw_type "bool"]);
      ("publish_retry_policy",
       Opt (VDict [(VStr "max_retries", VInt 3);
                   (VStr "interval_start", VInt 0);
                   (VStr "interval_max", VInt 1);
                   (VStr "interval_step", VFloat 2 (-1))])
           [kw_type "dict"]);
      ("serializer", Opt (VStr "json") []);
      ("soft_time_limit", Opt VNone [kw_type "float"]);
      ("time_limit", Opt VNone [kw_type "float"]);
      ("track_started", Opt (VBool false) [kw_type "bool"]);
      ("queues", Opt VNone [kw_type "dict"]);
      ("queue_ha_policy", Opt VNone [kw_type "string"]);
      ("queue_max_priority", Opt VNone [kw_type "int"])
     ]);
   ("worker", EDict
     [
      ("agent", Opt VNone [kw_type "string"]);
      ("autoscaler", Opt (VStr "celery.worker.autoscale:Autoscaler") []);
      ("autoreloader", Opt (VStr "celery.worker.autoreload:Autoreloader") []);
      ("concurrency", Opt (VInt 0) [kw_type "int"]);
      ("disable_rate_limits", Opt (VBool false) [kw_type "bool"]);
      ("timer", Opt VNone [kw_type "string"]);
      ("timer_precision", Opt (VFloat 10 (-1)) [kw_type "float"]);
      ("force_execv", Opt (VBool false) [kw_type "bool"]);
      ("hijack_root_logger", Opt (VBool true) [kw_type "bool"]);
      ("consumer",
       Opt (VStr "celery.worker.consumer:Consumer") [kw_type "string"]);
      ("enable_remote_control", Opt (VBool true) [kw_type "bool"]);
      ("log_format", Opt DEFAULT_PROCESS_LOG_FMT []);
      ("log_color", Opt VNone [kw_type "bool"]);
      ("max_tasks_per_child", Opt VNone [kw_type "int"]);
      ("pool", Opt DEFAULT_POOL []);
      ("pool_putlocks", Opt (VBool true) [kw_type "bool"]);
      ("pool_restarts", Opt (VBool false) [kw_type "bool"]);
      ("prefetch_multiplier", Opt (VInt 4) [kw_type "int"]);
      ("send_events", Opt (VBool false) [kw_type "bool"]);
      ("state_db", Opt VNone []);
      ("task_log_format", Opt DEFAULT_TASK_LOG_FMT []);
      ("redirect_stdouts", Opt (VBool true) [kw_type "bool"]);
      ("redirect_stdouts_level", Opt (VStr "WARNING") []);
      ("direct", Opt (VBool false) [kw_type "bool"]);
      ("lost_wait", Opt (VFloat 100 (-1)) [kw_type "float"])
     ])
  ].

(** ** flatten *)

(** One pass of the inner [for key, value in items(space)] loop of
    [flatten]: the pairs it yields, and the pairs it appends to the
    work queue, both in iteration order. *)
Fixpoint flatten_space (name : string) (space : tree)
  : list (string * Option) * list (string * tree) :=
  match space with
  | [] => ([], [])
  | (key, value) :: rest =>
      let (yielded, pushed) := flatten_space name rest in
      match value with
      | EDict d => (yielded, ((name +:+ key) +:+ "_", d) :: pushed)
      | EOption o => ((name +:+ key, o) :: yielded, pushed)
      end
  end.

(** Number of dicts in a value, in a dict's items, in the work queue:
    what the [while stack] loop consumes. *)
Fixpoint entry_dicts (e : entry) : nat :=
  match e with
  | EOption _ => 0
  | EDict d =>
      S ((fix items_dicts (l : tree) : nat :=
            match l with
            | [] => 0
            | (_, v) :: l' => entry_dicts v + items_dicts l'
            end) d)
  end.

Definition space_dicts (d : tree) : nat := entry_dicts (EDict d).

Definition stack_dicts (stack : list (string * tree)) : nat :=
  list_sum (map (fun p => space_dicts (snd p)) stack).

Lemma space_dicts_cons key value (rest : tree) :
  space_dicts ((key, value) :: rest) = entry_dicts value + space_dicts rest.
Proof. unfold space_dicts. simpl. lia. Qed.

Lemma stack_dicts_cons name (d : tree) stack :
  stack_dicts ((name, d) :: stack) = space_dicts d + stack_dicts stack.
Proof. reflexivity. Qed.

Lemma stack_dicts_app s1 s2 :
  stack_dicts (s1 ++ s2) = stack_dicts s1 + stack_dicts s2.
Proof. unfold stack_dicts. rewrite map_app, list_sum_app. reflexivity. Qed.

Lemma flatten_space_pushed_dicts name (d : tree) :
  S (stack_dicts (snd (flatten_space name d))) = space_dicts d.
Proof.
  induction d as [|[key value] rest IH]; [reflexivity|].
  rewrite space_dicts_cons. simpl.
  destruct (flatten_space name rest) as [yielded pushed].
  destruct value as [o|d']; simpl in *.
  - exact IH.
  - unfold stack_dicts in *. simpl. fold (space_dicts d'). lia.
Qed.

(** The [while stack] loop of [flatten], from a given work queue. *)
Equations? flatten_loop (stack : list (string * tree))
  : list (string * Option) by wf (stack_dicts stack) lt :=
  flatten_loop [] := [];
  flatten_loop ((name, space) :: stack) :=
    fst (flatten_space name space)
      ++ flatten_loop (stack ++ snd (flatten_space name space)).
Proof.
  rewrite stack_dicts_app, stack_dicts_cons.
  pose proof (flatten_space_pushed_dicts name space). lia.
Qed.

(** [flatten(d, ns='')], the generator read to its end. *)
Definition flatten (d : tree) (ns : string) : list (string * Option) :=
  flatten_loop [(ns, d)].

(** [DEFAULTS = {key: value.default for key, value in flatten(NAMESPACES)}] *)
Definition DEFAULTS : gmap string pyval :=
  fold_left (fun m kv => <[fst kv := opt_default (snd kv)]> m)
            (flatten NAMESPACES "") ∅.

(** ** find *)

(** What the third field of a [searchresult] can hold: a value of the
    tree (an [Option] or a whole dict), or a default taken from
    [DEFAULTS]. *)
Inductive found : Type :=
| FEntry (e : entry)
| FDefault (v : pyval).

(** [searchresult = namedtuple('searchresult', ('namespace', 'key', 'type'))] *)
Record searchresult : Type := mksearchresult {
  sr_namespace : option string;
  sr_key : string;
  sr_type : found
}.

(** [v[k]] for a value of the tree: a dict is subscripted, an [Option]
    has no [__getitem__]. *)
Definition entry_getitem (v : entry) (k : string) : result entry :=
  match v with
  | EDict d => dict_getitem d k
  | EOption _ => Raise TypeError
  end.

Section Resolver.

(** The module globals read by [find]. *)
Variable NS : tree.
Variable DEF : gmap string pyval.

(** The [for ns, keys in items(NAMESPACES)] loop of [find]; [Ok None]
    when the loop ends without returning.  The inner [try] catches
    [KeyError] alone. *)
Fixpoint find_loop (its : tree) (name : string)
  : result (option searchresult) :=
  match its with
  | [] => Ok None
  | (ns, keys) :: rest =>
      if String.eqb (lower ns) (lower name) then
        Ok (Some (mksearchresult None ns (FEntry keys)))
      else
        match keys with
        | EDict d =>
            match dict_getitem d (lower name) with
            | Ok v =>
                Ok (Some (mksearchresult (Some ns) (lower name) (FEntry v)))
            | Raise (KeyError _) => find_loop rest name
            | Raise e => Raise e
            end
        | EOption _ => find_loop rest name
        end
  end.

(** The body of [find(name, namespace='celery')]. *)
Definition find_in (name namespace : string) : result searchresult :=
  let namespace := lower namespace in
  match (keys <-- dict_getitem NS namespace ;;
         entry_getitem keys (lower name)) with
  | Ok v => Ok (mksearchresult (Some namespace) (lower name) (FEntry v))
  | Raise (KeyError _) =>
      r <-- find_loop NS name ;;
      match r with
      | Some r => Ok r
      | None =>
          v <-- match DEF !! lower name with
                | Some v => Ok v
                | None => Raise (KeyError (VStr (lower name)))
                end ;;
          Ok (mksearchresult None (lower name) (FDefault v))
      end
  | Raise e => Raise e
  end.

End Resolver.

(** [find], on the module's own [NAMESPACES] and [DEFAULTS]. *)
Definition find (name namespace : string) : result searchresult :=
  find_in NAMESPACES DEFAULTS name namespace.

(** The default of the [namespace] parameter. *)
Definition default_namespace : string := "celery".

(** Modelled from the spec: the [memoize(maxsize=None)] decorator of
    [celery.utils.functional], whose code is outside this module.  Results
    are cached without eviction, keyed by the exact argument pair; a call
    that raises stores nothing. *)
Definition memoize (fun_ : string -> string -> result searchresult)
    (cache : gmap (string * string) searchresult) (name namespace : string)
  : result searchresult * gmap (string * string) searchresult :=
  match cache !! (name, namespace) with
  | Some value => (Ok value, cache)
  | None =>
      match fun_ name namespace with
      | Ok value => (Ok value, <[(name, namespace) := value]> cache)
      | Raise e => (Raise e, cache)
      end
  end.

(** [find] as the module exports it, behind [@memoize(maxsize=None)]. *)
Definition find_memoized := memoize find.

(** ** find_deprecated_settings *)

(** A configuration source is an object on the heap, named by its
    address; its attributes are a finite map. *)
Abbreviation address := nat (only parsing).

(** Modelled from the spec: the arguments of one [warn_deprecated] call
    ([celery.utils], outside this module).  [w_alternative] is the [alt]
    attribute interpolated in ['Use the {0.alt} instead']. *)
Record warning : Type := mkwarning {
  w_description : string;
  w_deprecation : pyval;
  w_removal : pyval;
  w_alternative : pyval
}.

(** The state the scan runs in: the heap of source objects and the
    warnings emitted so far, oldest first. *)
Record world : Type := mkworld {
  heap : gmap nat (gmap string pyval);
  warnings : list warning
}.

Definition M (A : Type) : Type := world -> A * world.

Definition ret {A} (a : A) : M A := fun w => (a, w).

Definition bind {A B} (m : M A) (k : A -> M B) : M B :=
  fun w => let (a, w') := m w in k a w'.

Notation "x <~ m ;; k" := (bind m (fun x => k))
  (at level 100, m at next level, right associativity).
Notation "m ;;; k" := (bind m (fun _ => k))
  (at level 100, right associativity).

(** [getattr(source, name, None)] on a plain attribute holder. *)
Definition getattr (source : address) (name : string) : M pyval :=
  fun w =>
    (match heap w !! source with
     | Some attrs => match attrs !! name with Some v => v | None => VNone end
     | None => VNone
     end, w).

(** Modelled from the spec: [warn_deprecated] emits one warning and
    returns. *)
Definition warn_deprecated (description : string)
    (deprecation removal alternative : pyval) : M unit :=
  fun w => (tt, mkworld (heap w)
                        (warnings w ++ [mkwarning description deprecation
                                                  removal alternative])).

(** [repr] of a string made of letters, digits and underscores. *)
Definition repr_name (name : string) : string := "'" +:+ name +:+ "'".

(** The body of the [for name, opt in flatten(NAMESPACES)] loop. *)
Definition check_deprecated (source : address) (name : string)
    (opt : Option) : M unit :=
  if truthy (py_or (opt_deprecate_by opt) (opt_remove_by opt)) then
    v <~ getattr source name ;;
    if truthy v then
      warn_deprecated ("The " +:+ repr_name name +:+ " setting")
                      (opt_deprecate_by opt) (opt_remove_by opt)
                      (opt_alt opt)
    else ret tt
  else ret tt.

Fixpoint scan_options (options : list (string * Option))
    (source : address) : M unit :=
  match options with
  | [] => ret tt
  | (name, opt) :: rest =>
      check_deprecated source name opt ;;; scan_options rest source
  end.

Section Scan.

(** The module global read by [find_deprecated_settings]. *)
Variable NS : tree.

Definition find_deprecated_settings_in (source : address) : M address :=
  scan_options (flatten NS "") source ;;;
  ret source.

End Scan.

(** [find_deprecated_settings(source)] *)
Definition find_deprecated_settings (source : address) : M address :=
  find_deprecated_settings_in NAMESPACES source.

(** ** The resolution strategies, as the specification words them *)

(** Whether a value of the tree is a nested dict holding key [k]. *)
Definition entry_has_key (keys : entry) (k : string) : bool :=
  match keys with
  | EDict d => match dict_get d k with Some _ => true | None => false end
  | EOption _ => false
  end.

Section Strategies.

Variable NS : tree.
Variable DEF : gmap string pyval.

(** 1. Direct namespace+key match: [namespace] (lowercased) is a known
    namespace and [name] (lowercased) is a key within it. *)
Definition direct_match (name namespace : string) : bool :=
  match dict_get NS (lower namespace) with
  | Some keys => entry_has_key keys (lower name)
  | None => false
  end.

(** 2. Namespace-as-name match: some top-level name (lowercased)
    equals [name] (lowercased). *)
Definition namespace_match (name : string) : bool :=
  existsb (fun p => String.eqb (lower (fst p)) (lower name)) NS.

(** 3. Cross-namespace key match: [name] (lowercased) is a key of some
    nested mapping. *)
Definition cross_namespace_match (name : string) : bool :=
  existsb (fun p => entry_has_key (snd p) (lower name)) NS.

(** 4. Qualified-name fallback: [name] (lowercased) is in the flattened
    defaults table. *)
Definition qualname_match (name : string) : bool :=
  match DEF !! lower name with Some _ => true | None => false end.

Definition matches_some_strategy (name namespace : string) : bool :=
  direct_match name namespace || namespace_match name
  || cross_namespace_match name || qualname_match name.

(** The namespace argument (lowercased) names a top-level entry that
    is an [Option], not a nested mapping. *)
Definition flat_namespace (namespace : string) : bool :=
  match dict_get NS (lower namespace) with
  | Some (EOption _) => true
  | _ => false
  end.

End Strategies.

(** ** Every leaf of a tree, by its path *)

(** The leaves below a value reached by [path] (root first), in
    depth-first order. *)
Fixpoint entry_leaves (path : list string) (e : entry)
  : list (list string * Option) :=
  match e with
  | EOption o => [(path, o)]
  | EDict d =>
      (fix items_leaves (l : tree) : list (list string * Option) :=
         match l with
         | [] => []
         | (k, v) :: l' => entry_leaves (path ++ [k]) v ++ items_leaves l'
         end) d
  end.

Definition tree_leaves (d : tree) : list (list string * Option) :=
  entry_leaves [] (EDict d).

(** The ancestor names and the key joined with ['_']; the bare key for a
    top-level entry. *)
Definition qualified_name (path : list string) : string :=
  String.concat "_" path.

Definition qualified_leaves (d : tree) : list (string * Option) :=
  map (fun p => (qualified_name (fst p), snd p)) (tree_leaves d).

(** The same leaves, named the way [flatten] names them: [name] is the
    full name of an [Option], and the prefix of the keys of a dict. *)
Definition child_name (name key : string) (value : entry) : string :=
  match value with
  | EOption _ => name +:+ key
  | EDict _ => (name +:+ key) +:+ "_"
  end.

Fixpoint entry_dfs (name : string) (e : entry) : list (string * Option) :=
  match e with
  | EOption o => [(name, o)]
  | EDict d =>
      (fix items_dfs (l : tree) : list (string * Option) :=
         match l with
         | [] => []
         | (k, v) :: l' => entry_dfs (child_name name k v) v ++ items_dfs l'
         end) d
  end.

Definition space_dfs (name : string) (d : tree) : list (string * Option) :=
  entry_dfs name (EDict d).

Definition stack_dfs (stack : list (string * tree))
  : list (string * Option) :=
  flat_map (fun p => space_dfs (fst p) (snd p)) stack.

(** The prefix [flatten] has built when it reaches the dict at [path]. *)
Fixpoint path_prefix (path : list string) : string :=
  match path with
  | [] => ""
  | k :: rest => (k +:+ "_") +:+ path_prefix rest
  end.

Definition entry_name (path : list string) (e : entry) : string :=
  match e with
  | EOption _ => qualified_name path
  | EDict _ => path_prefix path
  end.

(** Induction on values of the tree, through the items of a dict. *)
Definition entry_ind' (P : entry -> Prop)
    (HOption : forall o, P (EOption o))
    (HDict : forall d, Forall (fun p => P (snd p)) d -> P (EDict d))
  : forall e, P e :=
  fix entry_ind' (e : entry) : P e :=
    match e with
    | EOption o => HOption o
    | EDict d =>
        HDict d
          ((fix items_ind (l : tree) : Forall (fun p => P (snd p)) l :=
              match l with
              | [] => @List.Forall_nil _ _
              | (k, v) :: l' =>
                  @List.Forall_cons _ _ (k, v) l' (entry_ind' v) (items_ind l')
              end) d)
    end.

(** ** Invariants used in the proofs *)

(** A cache holds only results [find] gives. *)
Definition cache_sound (cache : gmap (string * string) searchresult) : Prop :=
  forall name namespace value,
    cache !! (name, namespace) = Some value ->
    find name namespace = Ok value.

(** What a computation may do to the world: leave the heap alone and
    only append warnings. *)
Definition only_warns {A} (m : M A) : Prop :=
  forall w, heap (snd (m w)) = heap w
            /\ exists emitted, warnings (snd (m w)) = warnings w ++ emitted.

(** Every key of a tree, at every depth, satisfies [P]. *)
Fixpoint entry_keys_all (P : string -> bool) (e : entry) : bool :=
  match e with
  | EOption _ => true
  | EDict d =>
      (fix items_all (l : tree) : bool :=
         match l with
         | [] => true
         | (k, v) :: l' => P k && entry_keys_all P v && items_all l'
         end) d
  end.

(** No dict of a tree lists a key twice. *)
Fixpoint entry_keys_unique (e : entry) : bool :=
  match e with
  | EOption _ => true
  | EDict d =>
      bool_decide (NoDup (map fst d))
      && (fix items_unique (l : tree) : bool :=
            match l with
            | [] => true
            | (_, v) :: l' => entry_keys_unique v && items_unique l'
            end) d
  end.

(** ** Definitions for the further properties *)

(** Whether [typemap] has an entry for the type of an [Option]. *)
Definition type_known (o : Option) : bool :=
  match typemap_getitem (opt_type o) with
  | Ok _ => true
  | Raise _ => false
  end.

(** The attribute names [setattr] stores in fields of their own. *)
Definition own_attribute (attr : string) : bool :=
  String.eqb attr "default" || String.eqb attr "type"
  || String.eqb attr "alt" || String.eqb attr "deprecate_by"
  || String.eqb attr "remove_by".

(** The keyword names that are not stored as plain attributes of their
    own: those that shadow what [to_python] reads from the class, and
    those the interpreter handles itself. *)
Definition special_attribute (attr : string) : bool :=
  existsb (String.eqb attr)
          ["typemap"; "to_python"; "__class__"; "__dict__"; "__weakref__"].

Definition plain_keywords (kwargs : list (string * pyval)) : bool :=
  forallb (fun kv => negb (special_attribute (fst kv))) kwargs.

(** [kwargs.get(attr)], [None] when absent. *)
Definition kwargs_get (kwargs : list (string * pyval)) (attr : string)
  : pyval :=
  match dict_get kwargs attr with
  | Some v => v
  | None => VNone
  end.

(** The registered settings whose declared type has no entry in
    [typemap]. *)
Definition settings_of_unknown_type : list string :=
  ["accept_content"; "cassandra_servers"; "result_compression"].

(** An entry of the tree that the loop of [find] passes over for
    [name]: its name differs and, if a dict, it lacks the key. *)
Definition passed_over (name : string) (p : string * entry) : Prop :=
  String.eqb (lower (fst p)) (lower name) = false
  /\ entry_has_key (snd p) (lower name) = false.

(** Whether the scan warns about a yielded pair: the option declares
    [deprecate_by] or [remove_by], and the source holds a truthy
    attribute of that name. *)
Definition deprecated_and_set (h : gmap nat (gmap string pyval))
    (source : address) (p : string * Option) : bool :=
  truthy (py_or (opt_deprecate_by (snd p)) (opt_remove_by (snd p)))
  && truthy (match h !! source with
             | Some attrs =>
                 match attrs !! fst p with Some v => v | None => VNone end
             | None => VNone
             end).

(** The warning emitted for a yielded pair. *)
Definition warning_of (p : string * Option) : warning :=
  mkwarning ("The " +:+ repr_name (fst p) +:+ " setting")
            (opt_deprecate_by (snd p)) (opt_remove_by (snd p))
            (opt_alt (snd p)).

(** * Properties *)

(** ** Lowering *)

Lemma lower_ascii_idem (c : ascii) :
  lower_ascii (lower_ascii c) = lower_ascii c.
Proof.
  destruct c as [b0 b1 b2 b3 b4 b5 b6 b7].
  destruct b0, b1, b2, b3, b4, b5, b6, b7; reflexivity.
Qed.

Lemma lower_idem (s : string) : lower (lower s) = lower s.
Proof.
  induction s as [|c s IH]; simpl; [reflexivity|].
  rewrite lower_ascii_idem, IH. reflexivity.
Qed.

(** ** Subscripting *)

Lemma dict_getitem_Ok {V} (d : list (string * V)) k v :
  dict_getitem d k = Ok v <-> dict_get d k = Some v.
Proof.
  unfold dict_getitem. destruct (dict_get d k); split; congruence.
Qed.

Lemma dict_getitem_Raise {V} (d : list (string * V)) k e :
  dict_getitem d k = Raise e -> e = KeyError (VStr k) /\ dict_get d k = None.
Proof.
  unfold dict_getitem. destruct (dict_get d k); [discriminate|].
  intros [= <-]. split; reflexivity.
Qed.

(** ** The resolver on an arbitrary tree *)

Section ResolverFacts.

Variable NS : tree.
Variable DEF : gmap string pyval.

Lemma find_loop_lower its name :
  find_loop its (lower name) = find_loop its name.
Proof.
  induction its as [|[ns keys] rest IH]; simpl; [reflexivity|].
  rewrite lower_idem, IH. reflexivity.
Qed.

Lemma find_in_lower name namespace :
  find_in NS DEF name namespace
  = find_in NS DEF (lower name) (lower namespace).
Proof.
  unfold find_in. rewrite !lower_idem, find_loop_lower. reflexivity.
Qed.

(** The loop raises nothing. *)
Lemma find_loop_Ok its name : exists r, find_loop its name = Ok r.
Proof.
  induction its as [|[ns keys] rest IH]; simpl; [eauto|].
  destruct (String.eqb (lower ns) (lower name)); [eauto|].
  destruct keys as [o|d]; [exact IH|].
  unfold dict_getitem. destruct (dict_get d (lower name)); [eauto|exact IH].
Qed.

(** The loop returns nothing exactly when neither the namespace-as-name
    nor the cross-namespace strategy matches. *)
Lemma find_loop_None its name :
  find_loop its name = Ok None <->
  existsb (fun p => String.eqb (lower (fst p)) (lower name)) its = false /\
  existsb (fun p => entry_has_key (snd p) (lower name)) its = false.
Proof.
  induction its as [|[ns keys] rest IH]; simpl; [tauto|].
  destruct (String.eqb (lower ns) (lower name)); simpl.
  - split; [discriminate|intros [? _]; discriminate].
  - destruct keys as [o|d]; simpl; [exact IH|].
    unfold dict_getitem.
    destruct (dict_get d (lower name)); simpl; [|exact IH].
    split; [discriminate|intros [_ ?]; discriminate].
Qed.

(** A namespace argument naming a flat [Option] makes the direct step
    subscript the [Option]: the [TypeError] is not caught, and nothing
    else is tried. *)
Lemma find_in_flat_namespace name namespace :
  flat_namespace NS namespace = true ->
  find_in NS DEF name namespace = Raise TypeError.
Proof.
  unfold flat_namespace, find_in, dict_getitem.
  destruct (dict_get NS (lower namespace)) as [[o|d]|]; simpl;
    [reflexivity|discriminate|discriminate].
Qed.

(** Away from flat namespaces, a direct match returns. *)
Lemma find_in_direct name namespace :
  direct_match NS name namespace = true ->
  exists r, find_in NS DEF name namespace = Ok r.
Proof.
  unfold direct_match, find_in, dict_getitem.
  destruct (dict_get NS (lower namespace)) as [[o|d]|]; simpl;
    [discriminate| |discriminate].
  unfold dict_getitem. destruct (dict_get d (lower name)); simpl;
    [eauto|discriminate].
Qed.

(** Away from flat namespaces, [find] raises [KeyError] exactly when no
    strategy matches, and raises nothing else. *)
Lemma find_in_KeyError_iff name namespace :
  flat_namespace NS namespace = false ->
  (find_in NS DEF name namespace = Raise (KeyError (VStr (lower name)))
   <-> matches_some_strategy NS DEF name namespace = false)
  /\ (forall e, find_in NS DEF name namespace = Raise e ->
                e = KeyError (VStr (lower name))).
Proof.
  unfold flat_namespace, matches_some_strategy, direct_match, find_in.
  intros Hflat.
  pose proof (find_loop_None NS name) as Hloop.
  set (fallback :=
         r <-- find_loop NS name ;;
         match r with
         | Some r => Ok r
         | None =>
             v <-- match DEF !! lower name with
                   | Some v => Ok v
                   | None => Raise (KeyError (VStr (lower name)))
                   end ;;
             Ok (mksearchresult None (lower name) (FDefault v))
         end).
  assert (Hfall :
    (fallback = Raise (KeyError (VStr (lower name)))
     <-> namespace_match NS name || cross_namespace_match NS name
         || qualname_match DEF name = false)
    /\ (forall e, fallback = Raise e -> e = KeyError (VStr (lower name)))).
  { unfold fallback, namespace_match, cross_namespace_match, qualname_match.
    destruct (find_loop_Ok NS name) as [[r|] Hr]; rewrite Hr; simpl.
    - split; [|done]. split; [done|]. intros H.
      rewrite !orb_false_iff in H. destruct H as [[Hn Hc] _].
      assert (Ok (Some r) = Ok None) by (rewrite <- Hr; apply Hloop; auto).
      done.
    - destruct Hloop as [Hl _]. destruct (Hl Hr) as [-> ->]. simpl.
      destruct (DEF !! lower name); simpl; split;
        try (split; congruence); congruence. }
  unfold dict_getitem.
  destruct (dict_get NS (lower namespace)) as [[o|d]|];
    cbn [rbind entry_getitem entry_has_key orb];
    [done| |exact Hfall].
  unfold dict_getitem.
  destruct (dict_get d (lower name)); cbn [orb]; [|exact Hfall].
  split; [split; done|done].
Qed.

End ResolverFacts.

(** ** The resolver on [NAMESPACES] *)

(** For a namespace argument that does not name a flat [Option], [find]
    raises [KeyError] exactly when no strategy matches, and raises
    nothing else. *)
Lemma find_KeyError_iff name namespace :
  flat_namespace NAMESPACES namespace = false ->
  (find name namespace = Raise (KeyError (VStr (lower name)))
   <-> matches_some_strategy NAMESPACES DEFAULTS name namespace = false)
  /\ (forall e, find name namespace = Raise e ->
                e = KeyError (VStr (lower name))).
Proof. apply find_in_KeyError_iff. Qed.

Example find_unknown_setting :
  find "totally_unknown_setting" default_namespace
  = Raise (KeyError (VStr "totally_unknown_setting")).
Proof. vm_compute. reflexivity. Qed.

(** C1 (the code departs from the claim): with the namespace argument
    ['timezone'], a top-level [Option], [find] lets a [TypeError] escape
    both for a name the cross-namespace strategy matches (['url']) and
    for a name no strategy matches, where the claim promises a result
    and a [KeyError]. *)
Theorem find_TypeError_escapes :
  find "url" "timezone" = Raise TypeError
  /\ matches_some_strategy NAMESPACES DEFAULTS "url" "timezone" = true
  /\ find "totally_unknown_setting" "timezone" = Raise TypeError
  /\ matches_some_strategy NAMESPACES DEFAULTS
       "totally_unknown_setting" "timezone" = false.
Proof. repeat split; vm_compute; reflexivity. Qed.

(** C10: whenever the namespace argument, lowercased, names a top-level
    entry of [NAMESPACES] that is an [Option], [find] raises [TypeError]
    for every name: the direct step subscripts the [Option], the error
    is not a [KeyError], and no fallback runs. *)
Theorem find_flat_namespace_TypeError name namespace :
  flat_namespace NAMESPACES namespace = true ->
  find name namespace = Raise TypeError.
Proof. apply find_in_flat_namespace. Qed.

Lemma find_flat_namespace_TypeError_witness :
  flat_namespace NAMESPACES "Admins" = true
  /\ find "broker_URL" "Admins" = Raise TypeError.
Proof.
  split; [reflexivity|].
  apply (find_flat_namespace_TypeError "broker_URL" "Admins"). reflexivity.
Defined.

(** C8: [find] depends on its arguments only through their lowercase
    forms: the outcome (result or exception) for [name] and [namespace]
    is the outcome for [lower name] and [lower namespace]. *)
Theorem find_case_insensitive name namespace :
  find name namespace = find (lower name) (lower namespace).
Proof. apply find_in_lower. Qed.

(** C2: [find('url')] with the default namespace returns
    [('broker', 'url', <the broker url Option>)]: the default namespace
    has no entry, ['broker'] is the ninth entry of the tree and holds
    ['url'], and none of the eight entries declared before it is named
    ['url'] or holds a key ['url']. *)
Theorem find_url_default_namespace :
  exists d o,
    NAMESPACES !! 8%nat = Some ("broker", EDict d)
    /\ dict_get d "url" = Some (EOption o)
    /\ find "url" default_namespace
       = Ok (mksearchresult (Some "broker") "url" (FEntry (EOption o)))
    /\ direct_match NAMESPACES "url" default_namespace = false
    /\ Forall (fun p => String.eqb (lower (fst p)) "url" = false
                        /\ entry_has_key (snd p) "url" = false)
              (take 8 NAMESPACES).
Proof.
  eexists _, _. split; [reflexivity|].
  split; [reflexivity|].
  split; [vm_compute; reflexivity|].
  split; [reflexivity|].
  repeat constructor.
Qed.

(** C6: [find('broker')] with the default namespace returns
    [(None, 'broker', <the whole broker dict>)]: ['broker'] is a
    top-level name of the tree, and the direct step finds nothing since
    ['celery'] is not one. *)
Theorem find_broker_default_namespace :
  exists d,
    dict_get NAMESPACES "broker" = Some (EDict d)
    /\ find "broker" default_namespace
       = Ok (mksearchresult None "broker" (FEntry (EDict d)))
    /\ direct_match NAMESPACES "broker" default_namespace = false
    /\ namespace_match NAMESPACES "broker" = true.
Proof.
  eexists. split; [reflexivity|].
  repeat split; vm_compute; reflexivity.
Qed.

(** C5: [find('broker_url')] with the default namespace returns
    [(None, 'broker_url', DEFAULTS['broker_url'])], the default of the
    broker url [Option]: the first three strategies do not match. *)
Theorem find_broker_url_default_namespace :
  exists d o,
    dict_get NAMESPACES "broker" = Some (EDict d)
    /\ dict_get d "url" = Some (EOption o)
    /\ DEFAULTS !! "broker_url" = Some (opt_default o)
    /\ find "broker_url" default_namespace
       = Ok (mksearchresult None "broker_url" (FDefault (opt_default o)))
    /\ direct_match NAMESPACES "broker_url" default_namespace = false
    /\ namespace_match NAMESPACES "broker_url" = false
    /\ cross_namespace_match NAMESPACES "broker_url" = false.
Proof.
  eexists _, _. split; [reflexivity|].
  split; [reflexivity|].
  repeat split; vm_compute; reflexivity.
Qed.

(** ** Option and its coercion table *)

Lemma setattr_type_other o attr value :
  attr <> "type" -> opt_type (setattr o attr value) = opt_type o.
Proof.
  intros Hne. unfold setattr.
  destruct (String.eqb_spec attr "default"); [reflexivity|].
  destruct (String.eqb_spec attr "type"); [contradiction|].
  repeat (match goal with |- context [String.eqb ?a ?b] =>
                            destruct (String.eqb a b) end);
    reflexivity.
Qed.

Lemma setattr_type o value : opt_type (setattr o "type" value) = value.
Proof. reflexivity. Qed.

(** The [setattr] loop leaves in [type] the value of the [type] keyword,
    when there is one. *)
Lemma setattr_loop_type kwargs self t :
  NoDup (map fst kwargs) ->
  dict_get kwargs "type" = Some t ->
  opt_type (fold_left (fun self kv => setattr self (fst kv) (snd kv))
                      kwargs self) = t.
Proof.
  revert self. induction kwargs as [|[k v] rest IH]; intros self Hnd Hget;
    [discriminate|].
  simpl in *. apply NoDup_cons in Hnd as [Hk Hnd].
  destruct (String.eqb_spec k "type") as [->|Hne].
  - injection Hget as ->.
    assert (Hrest : forall self',
      opt_type self' = t ->
      opt_type (fold_left (fun self kv => setattr self (fst kv) (snd kv))
                          rest self') = t).
    { clear IH Hnd. induction rest as [|[k' v'] rest' IH'];
        intros self' Hs; [exact Hs|].
      simpl. apply IH'.
      - intros Hin. apply Hk. simpl. rewrite elem_of_cons. auto.
      - rewrite setattr_type_other; [exact Hs|].
        intros ->. apply Hk. simpl. rewrite elem_of_cons. auto. }
    apply Hrest. reflexivity.
  - apply IH; assumption.
Qed.

Lemma typemap_keys :
  map fst typemap = ["string"; "int"; "float"; "any"; "bool"; "dict"; "tuple"].
Proof. reflexivity. Qed.

Section CoercionFacts.

Variable call_builtin : callable -> pyval -> result pyval.

(** The seven entries of the table, as [to_python] dispatches them
    on an instance that shadows neither the method nor the table. *)
Lemma to_python_dispatch self value t f :
  dict_get (opt_extra self) "to_python" = None ->
  dict_get (opt_extra self) "typemap" = None ->
  opt_type self = VStr t ->
  dict_get typemap t = Some f ->
  to_python call_builtin self value = call call_builtin f value.
Proof.
  intros Hm Htab Ht Hf. unfold to_python, typemap_getitem, dict_getitem.
  rewrite Hm, Htab, Ht, Hf. reflexivity.
Qed.

Lemma to_python_any self value :
  dict_get (opt_extra self) "to_python" = None ->
  dict_get (opt_extra self) "typemap" = None ->
  opt_type self = VStr "any" ->
  to_python call_builtin self value = Ok value.
Proof.
  intros Hm Htab Ht. unfold to_python. rewrite Hm, Htab, Ht. reflexivity.
Qed.

Lemma to_python_unknown_type self value t :
  dict_get (opt_extra self) "to_python" = None ->
  dict_get (opt_extra self) "typemap" = None ->
  opt_type self = VStr t ->
  dict_get typemap t = None ->
  to_python call_builtin self value = Raise (KeyError (VStr t)).
Proof.
  intros Hm Htab Ht Hf. unfold to_python, typemap_getitem, dict_getitem.
  rewrite Hm, Htab, Ht, Hf. reflexivity.
Qed.

(** An instance attribute [typemap] replaces the class table: the
    subscript is the plain value's, and what it finds cannot be
    called. *)
Lemma to_python_shadowed_table self value table :
  dict_get (opt_extra self) "to_python" = None ->
  dict_get (opt_extra self) "typemap" = Some table ->
  to_python call_builtin self value
  = (_ <-- plain_getitem call_builtin table (opt_type self) ;;
     Raise TypeError).
Proof. intros Hm Htab. unfold to_python. rewrite Hm, Htab. reflexivity. Qed.

(** Whatever the shadowing table answers, [to_python] then raises. *)
Lemma to_python_shadowed_raises self value table :
  dict_get (opt_extra self) "typemap" = Some table ->
  exists e, to_python call_builtin self value = Raise e.
Proof.
  intros Htab. unfold to_python. rewrite Htab.
  destruct (dict_get (opt_extra self) "to_python"); [eauto|].
  destruct (plain_getitem call_builtin table (opt_type self)); simpl; eauto.
Qed.

(** [Option(type='int', typemap=None).to_python('1')] raises
    [TypeError]: the instance's [None] is subscripted, not the class
    table. *)
Example to_python_typemap_None :
  to_python call_builtin
            (Option_init VNone [kw_type "int"; ("typemap", VNone)])
            (VStr "1")
  = Raise TypeError.
Proof. reflexivity. Qed.

End CoercionFacts.

Lemma dict_get_set_eq {V} (d : list (string * V)) k v :
  dict_get (dict_set d k v) k = Some v.
Proof.
  induction d as [|[k' v'] rest IH]; simpl.
  - rewrite String.eqb_refl. reflexivity.
  - destruct (String.eqb k' k) eqn:E; simpl; rewrite E; [reflexivity|exact IH].
Qed.

Lemma dict_get_set_ne {V} (d : list (string * V)) k k' v :
  k' <> k -> dict_get (dict_set d k' v) k = dict_get d k.
Proof.
  intros Hne. induction d as [|[k0 v0] rest IH]; simpl.
  - destruct (String.eqb_spec k' k); [contradiction|reflexivity].
  - destruct (String.eqb_spec k0 k') as [->|Hk0]; simpl.
    + destruct (String.eqb_spec k' k); [contradiction|reflexivity].
    + destruct (String.eqb k0 k); [reflexivity|exact IH].
Qed.

(** What the [setattr] loop leaves in an attribute read by [g]: the
    keyword's value when the keyword is given, the initial value
    otherwise. *)
Lemma setattr_loop_get {X} (g : Option -> X) (inj : pyval -> X) attr :
  (forall o v, g (setattr o attr v) = inj v) ->
  (forall o attr' v, attr' <> attr -> g (setattr o attr' v) = g o) ->
  forall kwargs self,
    NoDup (map fst kwargs) ->
    g (fold_left (fun self kv => setattr self (fst kv) (snd kv)) kwargs self)
    = match dict_get kwargs attr with
      | Some v => inj v
      | None => g self
      end.
Proof.
  intros Hset Hother kwargs.
  induction kwargs as [|[k v] rest IH]; intros self Hnd; [reflexivity|].
  simpl in *. apply NoDup_cons in Hnd as [Hk Hnd].
  rewrite IH by exact Hnd.
  destruct (String.eqb_spec k attr) as [->|Hne].
  - assert (Hnone : dict_get rest attr = None).
    { clear -Hk. induction rest as [|[k' v'] rest' IH']; [reflexivity|].
      simpl in *. rewrite elem_of_cons in Hk.
      destruct (String.eqb_spec k' attr) as [->|_]; [tauto|].
      apply IH'. tauto. }
    rewrite Hnone. apply Hset.
  - destruct (dict_get rest attr); [reflexivity|]. apply Hother. exact Hne.
Qed.

(** The attributes [__init__] stores beside its own five are the
    keywords of those names. *)
Lemma Option_init_extra_get default kwargs attr :
  NoDup (map fst kwargs) ->
  own_attribute attr = false ->
  dict_get (opt_extra (Option_init default kwargs)) attr
  = dict_get kwargs attr.
Proof.
  intros Hnd Hown. unfold own_attribute in Hown.
  rewrite !orb_false_iff in Hown.
  destruct Hown as [[[[H1 H2] H3] H4] H5].
  apply String.eqb_neq in H1, H2, H3, H4, H5.
  unfold Option_init.
  rewrite (setattr_loop_get (fun o => dict_get (opt_extra o) attr) Some attr);
    try exact Hnd.
  - destruct (dict_get kwargs attr); reflexivity.
  - intros o v. unfold setattr.
    repeat match goal with
           | |- context [String.eqb attr ?b] =>
               destruct (String.eqb_spec attr b); [contradiction|]
           end.
    simpl. apply dict_get_set_eq.
  - intros o attr' v Hne. unfold setattr.
    repeat match goal with
           | |- context [String.eqb attr' ?b] =>
               destruct (String.eqb_spec attr' b); [reflexivity|]
           end.
    simpl. apply dict_get_set_ne. exact Hne.
Qed.

Lemma plain_keywords_get kwargs attr :
  plain_keywords kwargs = true ->
  special_attribute attr = true ->
  dict_get kwargs attr = None.
Proof.
  intros Hplain Hspecial.
  induction kwargs as [|[k v] rest IH]; [reflexivity|].
  simpl in *. apply andb_true_iff in Hplain as [Hk Hrest].
  destruct (String.eqb_spec k attr) as [->|_].
  - rewrite Hspecial in Hk. discriminate.
  - apply IH. exact Hrest.
Qed.

(** C3 (the claim fails): an [Option] constructed with a type that is
    not a key of [typemap] is not rejected; here [Option(type='bogus')]. *)
Lemma Option_init_unknown_type_accepted :
  ~ (forall default kwargs,
       exists f, typemap_getitem (opt_type (Option_init default kwargs))
                 = Ok f).
Proof.
  intros H. destruct (H VNone [kw_type "bogus"]) as [f Hf].
  vm_compute in Hf. discriminate.
Qed.

(** C3, amended: for keywords that are plain attribute names
    (none shadows [typemap] or [to_python], none is handled by the
    interpreter itself), construction stores whatever string the [type]
    keyword holds, known to the table or not; the table is consulted by
    [to_python] alone, which calls the entry found under that string and
    raises [KeyError] when there is none. *)
Theorem Option_type_checked_by_to_python
    call_builtin default kwargs t value :
  NoDup (map fst kwargs) ->
  plain_keywords kwargs = true ->
  dict_get kwargs "type" = Some (VStr t) ->
  opt_type (Option_init default kwargs) = VStr t
  /\ to_python call_builtin (Option_init default kwargs) value
     = match dict_get typemap t with
       | Some f => call call_builtin f value
       | None => Raise (KeyError (VStr t))
       end.
Proof.
  intros Hnd Hplain Hget.
  assert (Ht : opt_type (Option_init default kwargs) = VStr t)
    by (apply setattr_loop_type; assumption).
  assert (Hm : dict_get (opt_extra (Option_init default kwargs)) "to_python"
               = None).
  { rewrite Option_init_extra_get by (exact Hnd || reflexivity).
    apply plain_keywords_get; [exact Hplain|reflexivity]. }
  assert (Htab : dict_get (opt_extra (Option_init default kwargs)) "typemap"
                 = None).
  { rewrite Option_init_extra_get by (exact Hnd || reflexivity).
    apply plain_keywords_get; [exact Hplain|reflexivity]. }
  split; [exact Ht|].
  destruct (dict_get typemap t) as [f|] eqn:Hf.
  - apply to_python_dispatch with (t := t); assumption.
  - apply to_python_unknown_type; assumption.
Qed.

Lemma Option_type_checked_by_to_python_witness :
  opt_type (Option_init VNone [kw_type "bogus"; ("alt", VStr "other")])
  = VStr "bogus"
  /\ to_python (fun _ v => Ok v)
               (Option_init VNone [kw_type "bogus"; ("alt", VStr "other")])
               (VStr "1")
     = Raise (KeyError (VStr "bogus")).
Proof.
  apply (Option_type_checked_by_to_python
           (fun _ v => Ok v) VNone
           [kw_type "bogus"; ("alt", VStr "other")] "bogus" (VStr "1")).
  - apply (bool_decide_unpack _). vm_compute. exact I.
  - reflexivity.
  - reflexivity.
Defined.

(** C4 (the code departs from the claim): [typemap] has no ['list']
    key, so [to_python] on the ['list']-typed [accept_content] option
    raises [KeyError] for every raw value, whatever the builtins do. *)
Theorem to_python_list_KeyError call_builtin raw :
  exists o,
    dict_get NAMESPACES "accept_content" = Some (EOption o)
    /\ opt_type o = VStr "list"
    /\ dict_get typemap "list" = None
    /\ to_python call_builtin o raw = Raise (KeyError (VStr "list")).
Proof.
  eexists. split; [reflexivity|]. repeat split.
Qed.

(** ** flatten *)

Lemma string_app_cons x (a b : string) :
  String x a +:+ b = String x (a +:+ b).
Proof. reflexivity. Qed.

Lemma string_app_assoc (a b c : string) : (a +:+ b) +:+ c = a +:+ (b +:+ c).
Proof.
  induction a as [|x a IH]; [reflexivity|].
  rewrite !string_app_cons, IH. reflexivity.
Qed.

Lemma string_app_empty_r (a : string) : a +:+ "" = a.
Proof.
  induction a as [|x a IH]; [reflexivity|].
  rewrite string_app_cons, IH. reflexivity.
Qed.

Lemma path_prefix_snoc path k :
  path_prefix (path ++ [k]) = (path_prefix path +:+ k) +:+ "_".
Proof.
  induction path as [|p ps IH]; cbn [path_prefix app].
  - rewrite string_app_empty_r. reflexivity.
  - rewrite IH, !string_app_assoc. reflexivity.
Qed.

Lemma qualified_name_snoc path k :
  qualified_name (path ++ [k]) = path_prefix path +:+ k.
Proof.
  unfold qualified_name. induction path as [|p ps IH]; [reflexivity|].
  change (String.concat "_" ((p :: ps) ++ [k]))
    with (String.concat "_" (p :: (ps ++ [k]))).
  change (path_prefix (p :: ps)) with ((p +:+ "_") +:+ path_prefix ps).
  rewrite !string_app_assoc, <- IH.
  destruct ps; reflexivity.
Qed.

Lemma child_name_entry_name path k v :
  child_name (path_prefix path) k v = entry_name (path ++ [k]) v.
Proof.
  destruct v as [o|d]; simpl.
  - rewrite qualified_name_snoc. reflexivity.
  - rewrite path_prefix_snoc. reflexivity.
Qed.

Lemma space_dfs_cons name k v (rest : tree) :
  space_dfs name ((k, v) :: rest)
  = entry_dfs (child_name name k v) v ++ space_dfs name rest.
Proof. reflexivity. Qed.

(** Naming by accumulated prefix is naming by joined path. *)
Lemma entry_dfs_leaves e :
  forall path,
    entry_dfs (entry_name path e) e
    = map (fun p => (qualified_name (fst p), snd p)) (entry_leaves path e).
Proof.
  induction e as [o|d IH] using entry_ind'; intros path; [reflexivity|].
  simpl. induction IH as [|[k v] rest Hv _ IHrest]; [reflexivity|].
  rewrite map_app, <- IHrest, child_name_entry_name. simpl in Hv.
  rewrite Hv. reflexivity.
Qed.

(** One pass over a dict yields and pushes exactly its leaves. *)
Lemma flatten_space_dfs name (d : tree) :
  Permutation (fst (flatten_space name d)
               ++ stack_dfs (snd (flatten_space name d)))
              (space_dfs name d).
Proof.
  induction d as [|[k v] rest IH]; [reflexivity|].
  rewrite space_dfs_cons. simpl.
  destruct (flatten_space name rest) as [yielded pushed].
  destruct v as [o|d']; simpl in *.
  - apply perm_skip. exact IH.
  - fold (space_dfs ((name +:+ k) +:+ "_") d').
    rewrite Permutation_app_swap_app.
    apply Permutation_app_head. exact IH.
Qed.

(** The work-queue loop yields exactly the leaves of the queued dicts. *)
Lemma flatten_loop_dfs stack :
  Permutation (flatten_loop stack) (stack_dfs stack).
Proof.
  funelim (flatten_loop stack); [reflexivity|].
  match goal with
  | IH : Permutation (flatten_loop _) _ |- _ => rewrite IH
  end.
  unfold stack_dfs at 1. rewrite flat_map_app.
  fold (stack_dfs stack) (stack_dfs (snd (flatten_space name space))).
  change (stack_dfs ((name, space) :: stack))
    with (space_dfs name space ++ stack_dfs stack).
  rewrite <- (flatten_space_dfs name space).
  rewrite <- app_assoc.
  apply Permutation_app_head. apply Permutation_app_comm.
Qed.

(** [flatten] yields each leaf of any tree once, under its qualified
    name. *)
Lemma flatten_qualified_leaves (d : tree) :
  Permutation (flatten d "") (qualified_leaves d).
Proof.
  unfold flatten, qualified_leaves, tree_leaves.
  rewrite flatten_loop_dfs.
  change (stack_dfs [("", d)]) with (space_dfs "" d ++ []).
  rewrite app_nil_r.
  rewrite <- (entry_dfs_leaves (EDict d) []). reflexivity.
Qed.

(** C7: [flatten(NAMESPACES)] yields, up to order, exactly one pair
    [(qualified name, option)] for each leaf of the tree, the qualified
    name being the path joined with ['_']; no name is yielded twice. *)
Theorem flatten_NAMESPACES_complete :
  Permutation (flatten NAMESPACES "") (qualified_leaves NAMESPACES)
  /\ NoDup (map fst (flatten NAMESPACES "")).
Proof.
  split; [apply flatten_qualified_leaves|].
  apply (bool_decide_unpack _). vm_compute. exact I.
Qed.

(** ** The tree as written *)

(** The association lists stand for dicts: no key is listed twice. *)
Lemma NAMESPACES_keys_unique : entry_keys_unique (EDict NAMESPACES) = true.
Proof. vm_compute. reflexivity. Qed.

(** Every namespace and key name is already lowercase. *)
Lemma NAMESPACES_keys_lowercase :
  entry_keys_all (fun k => String.eqb (lower k) k) (EDict NAMESPACES) = true.
Proof. vm_compute. reflexivity. Qed.

(** No option of the tree declares [deprecate_by] or [remove_by]: on
    [NAMESPACES] the scan emits nothing. *)
Lemma NAMESPACES_nothing_deprecated :
  forallb (fun p => negb (truthy (py_or (opt_deprecate_by (snd p))
                                        (opt_remove_by (snd p)))))
          (flatten NAMESPACES "") = true.
Proof. vm_compute. reflexivity. Qed.

(** ** Memoization *)

Lemma cache_sound_empty : cache_sound ∅.
Proof. intros name namespace value H. rewrite lookup_empty in H. done. Qed.

(** Behind a sound cache the memoized [find] gives the outcome of
    [find], and leaves the cache sound. *)
Lemma find_memoized_transparent cache name namespace :
  cache_sound cache ->
  fst (find_memoized cache name namespace) = find name namespace
  /\ cache_sound (snd (find_memoized cache name namespace)).
Proof.
  intros Hs. unfold find_memoized, memoize.
  destruct (cache !! (name, namespace)) as [value|] eqn:Hc; simpl.
  - split; [symmetry; apply Hs; exact Hc|exact Hs].
  - destruct (find name namespace) as [value|e] eqn:Hf; simpl;
      (split; [reflexivity|]); [|exact Hs].
    intros name' namespace' value' H.
    destruct (decide ((name, namespace) = (name', namespace'))) as [Heq|Hne].
    + injection Heq as <- <-. rewrite lookup_insert_eq in H.
      injection H as <-. exact Hf.
    + rewrite lookup_insert_ne in H by exact Hne. apply Hs. exact H.
Qed.

(** ** The deprecation scan *)

Lemma only_warns_ret {A} (a : A) : only_warns (ret a).
Proof. intros w. split; [reflexivity|]. exists []. symmetry. apply app_nil_r. Qed.

Lemma only_warns_bind {A B} (m : M A) (k : A -> M B) :
  only_warns m -> (forall a, only_warns (k a)) -> only_warns (bind m k).
Proof.
  intros Hm Hk w. unfold bind. specialize (Hm w).
  destruct (m w) as [a w1]. specialize (Hk a w1). simpl in *.
  destruct Hm as [Hh [e1 He1]], Hk as [Hh' [e2 He2]].
  split; [congruence|]. exists (e1 ++ e2).
  rewrite He2, He1, app_assoc. reflexivity.
Qed.

Lemma only_warns_getattr source name : only_warns (getattr source name).
Proof. intros w. split; [reflexivity|]. exists []. symmetry. apply app_nil_r. Qed.

Lemma only_warns_warn_deprecated description deprecation removal alt :
  only_warns (warn_deprecated description deprecation removal alt).
Proof. intros w. split; [reflexivity|]. eexists. reflexivity. Qed.

Lemma only_warns_check_deprecated source name opt :
  only_warns (check_deprecated source name opt).
Proof.
  unfold check_deprecated.
  destruct (truthy _); [|apply only_warns_ret].
  apply only_warns_bind; [apply only_warns_getattr|].
  intros v. destruct (truthy v);
    [apply only_warns_warn_deprecated|apply only_warns_ret].
Qed.

Lemma only_warns_scan_options options source :
  only_warns (scan_options options source).
Proof.
  induction options as [|[name opt] rest IH]; simpl; [apply only_warns_ret|].
  apply only_warns_bind; [apply only_warns_check_deprecated|].
  intros _. exact IH.
Qed.

(** On any tree the scan returns its argument and only warns. *)
Lemma find_deprecated_settings_in_frame NS source w :
  fst (find_deprecated_settings_in NS source w) = source
  /\ heap (snd (find_deprecated_settings_in NS source w)) = heap w
  /\ exists emitted,
       warnings (snd (find_deprecated_settings_in NS source w))
       = warnings w ++ emitted.
Proof.
  unfold find_deprecated_settings_in, bind.
  pose proof (only_warns_scan_options (flatten NS "") source w) as H.
  destruct (scan_options (flatten NS "") source w) as [[] w1]. simpl in *.
  split; [reflexivity|exact H].
Qed.

(** A deprecated option that is set on the source makes the scan warn,
    and the source is still returned untouched. *)
Example scan_warns :
  let NS := [("old", EOption (Option_init VNone
                                [("deprecate_by", VStr "3.0");
                                 ("alt", VStr "new")]))] in
  let w := mkworld {[ 0%nat := {[ "old" := VInt 1 ]} ]} [] in
  find_deprecated_settings_in NS 0%nat w
  = (0%nat, mkworld (heap w)
              [mkwarning "The 'old' setting" (VStr "3.0") VNone (VStr "new")]).
Proof. reflexivity. Qed.

(** C9: the scan returns the very source it was given, whatever the
    world it runs in and however many warnings it emits; the heap, and
    so the source object, is left as it was, and the only change to the
    world is the warnings appended. *)
Theorem find_deprecated_settings_returns_source source w :
  fst (find_deprecated_settings source w) = source
  /\ heap (snd (find_deprecated_settings source w)) = heap w
  /\ exists emitted,
       warnings (snd (find_deprecated_settings source w))
       = warnings w ++ emitted.
Proof. apply find_deprecated_settings_in_frame. Qed.

(** * Further properties of the module *)

(** ** flatten under a prefix *)

Lemma child_name_prefix ns name k v :
  child_name (ns +:+ name) k v = ns +:+ child_name name k v.
Proof. destruct v; simpl; rewrite !string_app_assoc; reflexivity. Qed.

Lemma entry_dfs_prefix e :
  forall ns name,
    entry_dfs (ns +:+ name) e
    = map (fun p => (ns +:+ fst p, snd p)) (entry_dfs name e).
Proof.
  induction e as [o|d IH] using entry_ind'; intros ns name; [reflexivity|].
  simpl. induction IH as [|[k v] rest Hv _ IHrest]; [reflexivity|].
  rewrite map_app, <- IHrest, child_name_prefix. simpl in Hv.
  rewrite Hv. reflexivity.
Qed.

(** [flatten(d, ns)] on any tree and any prefix yields, up to order,
    one pair for each leaf: the prefix followed by the ['_']-joined path,
    and the [Option] at that leaf. *)
Theorem flatten_prefix_leaves (d : tree) (ns : string) :
  Permutation (flatten d ns)
              (map (fun p => (ns +:+ qualified_name (fst p), snd p))
                   (tree_leaves d)).
Proof.
  unfold flatten, tree_leaves. rewrite flatten_loop_dfs.
  change (stack_dfs [(ns, d)]) with (space_dfs ns d ++ []).
  rewrite app_nil_r. unfold space_dfs.
  rewrite <- (string_app_empty_r ns) at 1.
  rewrite entry_dfs_prefix.
  change "" with (entry_name [] (EDict d)).
  rewrite (entry_dfs_leaves (EDict d) []), map_map. reflexivity.
Qed.

(** ** DEFAULTS *)

Lemma fold_insert_notin {A} (f : A -> pyval) (l : list (string * A))
    (m : gmap string pyval) k :
  ~ In k (map fst l) ->
  fold_left (fun m kv => <[fst kv := f (snd kv)]> m) l m !! k = m !! k.
Proof.
  revert m. induction l as [|[k' a] rest IH]; intros m Hk; [reflexivity|].
  simpl in *. rewrite IH by tauto.
  apply lookup_insert_ne. tauto.
Qed.

Lemma fold_insert_in {A} (f : A -> pyval) (l : list (string * A))
    (m : gmap string pyval) k a :
  List.NoDup (map fst l) -> In (k, a) l ->
  fold_left (fun m kv => <[fst kv := f (snd kv)]> m) l m !! k = Some (f a).
Proof.
  revert m. induction l as [|[k' a'] rest IH]; intros m Hnd Hin;
    [destruct Hin|].
  simpl in *. inversion Hnd as [|? ? Hk' Hnd']; subst.
  destruct Hin as [[= -> ->]|Hin].
  - rewrite fold_insert_notin by exact Hk'. apply lookup_insert_eq.
  - apply IH; assumption.
Qed.

Lemma fold_insert_Some {A} (f : A -> pyval) (l : list (string * A)) k v :
  fold_left (fun m kv => <[fst kv := f (snd kv)]> m) l
            (∅ : gmap string pyval) !! k = Some v ->
  In k (map fst l).
Proof.
  intros H. destruct (in_dec String.string_dec k (map fst l)) as [Hin|Hout];
    [exact Hin|].
  rewrite fold_insert_notin in H by exact Hout.
  rewrite lookup_empty in H. discriminate.
Qed.

Lemma flatten_NAMESPACES_names_NoDup :
  List.NoDup (map fst (flatten NAMESPACES "")).
Proof.
  apply NoDup_ListNoDup. apply (bool_decide_unpack _). vm_compute. exact I.
Qed.

(** [DEFAULTS] holds, for each name [flatten] yields, the default of the
    [Option] yielded with it, and nothing else. *)
Theorem DEFAULTS_flatten name v :
  DEFAULTS !! name = Some v <->
  exists o, In (name, o) (flatten NAMESPACES "") /\ v = opt_default o.
Proof.
  unfold DEFAULTS. split.
  - intros H. pose proof (fold_insert_Some _ _ _ _ H) as Hin.
    apply in_map_iff in Hin as [[name' o] [Heq Hin]]. simpl in Heq. subst.
    exists o. split; [exact Hin|].
    rewrite (fold_insert_in opt_default _ ∅ name o
               flatten_NAMESPACES_names_NoDup Hin) in H.
    congruence.
  - intros [o [Hin ->]].
    apply fold_insert_in; [apply flatten_NAMESPACES_names_NoDup|exact Hin].
Qed.

(** ** Option construction *)

Ltac setattr_cases :=
  unfold setattr;
  repeat match goal with
         | |- context [String.eqb ?a ?b] =>
             destruct (String.eqb_spec a b); subst; try congruence;
             try discriminate
         end;
  try reflexivity.

(** The type of a constructed [Option] is the [type] keyword as given,
    falsy or not; ['string'] is used only when the keyword is absent. *)
Theorem Option_init_type default kwargs :
  NoDup (map fst kwargs) ->
  opt_type (Option_init default kwargs)
  = match dict_get kwargs "type" with
    | Some t => t
    | None => VStr "string"
    end.
Proof.
  intros Hnd. unfold Option_init.
  rewrite (setattr_loop_get opt_type (fun v => v) "type"); try exact Hnd.
  - destruct (dict_get kwargs "type"); reflexivity.
  - intros o v. reflexivity.
  - intros o attr' v Hne. setattr_cases.
Qed.

Lemma Option_init_type_witness :
  opt_type (Option_init (VInt 1) [("type", VStr ""); ("alt", VStr "x")])
  = VStr "".
Proof.
  apply (Option_init_type (VInt 1) [("type", VStr ""); ("alt", VStr "x")]).
  apply (bool_decide_unpack _). vm_compute. exact I.
Defined.

(** A constructed [Option] keeps the default it was given, and its
    [alt], [deprecate_by] and [remove_by] are the keywords of those
    names, [None] when absent. *)
Theorem Option_init_attributes default kwargs :
  NoDup (map fst kwargs) ->
  dict_get kwargs "default" = None ->
  opt_default (Option_init default kwargs) = default
  /\ opt_alt (Option_init default kwargs) = kwargs_get kwargs "alt"
  /\ opt_deprecate_by (Option_init default kwargs)
     = kwargs_get kwargs "deprecate_by"
  /\ opt_remove_by (Option_init default kwargs)
     = kwargs_get kwargs "remove_by".
Proof.
  intros Hnd Hdef. unfold Option_init, kwargs_get. repeat split.
  - rewrite (setattr_loop_get opt_default (fun v => v) "default");
      try exact Hnd.
    + rewrite Hdef. reflexivity.
    + intros o v. reflexivity.
    + intros o attr' v Hne. setattr_cases.
  - rewrite (setattr_loop_get opt_alt (fun v => v) "alt"); try exact Hnd.
    + reflexivity.
    + intros o v. reflexivity.
    + intros o attr' v Hne. setattr_cases.
  - rewrite (setattr_loop_get opt_deprecate_by (fun v => v) "deprecate_by");
      try exact Hnd.
    + reflexivity.
    + intros o v. reflexivity.
    + intros o attr' v Hne. setattr_cases.
  - rewrite (setattr_loop_get opt_remove_by (fun v => v) "remove_by");
      try exact Hnd.
    + reflexivity.
    + intros o v. reflexivity.
    + intros o attr' v Hne. setattr_cases.
Qed.

Lemma Option_init_attributes_witness :
  let kwargs := [("type", VStr "int"); ("deprecate_by", VStr "3.0");
                 ("alt", VStr "new_name")] in
  opt_default (Option_init (VInt 5) kwargs) = VInt 5
  /\ opt_alt (Option_init (VInt 5) kwargs) = VStr "new_name"
  /\ opt_deprecate_by (Option_init (VInt 5) kwargs) = VStr "3.0"
  /\ opt_remove_by (Option_init (VInt 5) kwargs) = VNone.
Proof.
  apply (Option_init_attributes (VInt 5)
           [("type", VStr "int"); ("deprecate_by", VStr "3.0");
            ("alt", VStr "new_name")]).
  - apply (bool_decide_unpack _). vm_compute. exact I.
  - reflexivity.
Defined.

(** Every other keyword becomes an attribute of the instance, readable
    under its name with the value given. *)
Theorem Option_init_extra default kwargs attr :
  NoDup (map fst kwargs) ->
  own_attribute attr = false ->
  dict_get (opt_extra (Option_init default kwargs)) attr
  = dict_get kwargs attr.
Proof.
  intros Hnd Hown. unfold own_attribute in Hown.
  rewrite !orb_false_iff in Hown.
  destruct Hown as [[[[H1 H2] H3] H4] H5].
  apply String.eqb_neq in H1, H2, H3, H4, H5.
  unfold Option_init.
  rewrite (setattr_loop_get (fun o => dict_get (opt_extra o) attr) Some attr);
    try exact Hnd.
  - destruct (dict_get kwargs attr); reflexivity.
  - intros o v. unfold setattr.
    repeat match goal with
           | |- context [String.eqb attr ?b] =>
               destruct (String.eqb_spec attr b); [contradiction|]
           end.
    simpl. apply dict_get_set_eq.
  - intros o attr' v Hne. unfold setattr.
    repeat match goal with
           | |- context [String.eqb attr' ?b] =>
               destruct (String.eqb_spec attr' b); [reflexivity|]
           end.
    simpl. apply dict_get_set_ne. exact Hne.
Qed.

Lemma Option_init_extra_witness :
  dict_get (opt_extra (Option_init VNone [("type", VStr "int");
                                          ("help", VStr "text")])) "help"
  = Some (VStr "text").
Proof.
  apply (Option_init_extra VNone [("type", VStr "int"); ("help", VStr "text")]
                           "help").
  - apply (bool_decide_unpack _). vm_compute. exact I.
  - reflexivity.
Defined.

(** ** to_python on the registered settings *)

Lemma registered_types_checked :
  forallb (fun p =>
             match opt_extra (snd p), opt_type (snd p) with
             | [], VStr _ =>
                 Bool.eqb
                   (existsb (String.eqb (fst p)) settings_of_unknown_type)
                   (negb (type_known (snd p)))
             | _, _ => false
             end)
          (flatten NAMESPACES "") = true.
Proof. vm_compute. reflexivity. Qed.

(** Of the settings [flatten(NAMESPACES)] yields, [to_python] raises
    [KeyError] on exactly three, whose declared type has no entry in
    [typemap]; on every other it calls the entry of the declared type. *)
Theorem to_python_registered call_builtin name o raw :
  In (name, o) (flatten NAMESPACES "") ->
  exists t,
    opt_type o = VStr t
    /\ if existsb (String.eqb name) settings_of_unknown_type
       then dict_get typemap t = None
            /\ to_python call_builtin o raw = Raise (KeyError (VStr t))
       else exists f, dict_get typemap t = Some f
                      /\ to_python call_builtin o raw = call call_builtin f raw.
Proof.
  intros Hin.
  pose proof registered_types_checked as Hall.
  rewrite forallb_forall in Hall. specialize (Hall _ Hin).
  cbn [fst snd] in Hall.
  destruct (opt_extra o) as [|kv extra] eqn:Hextra; [|discriminate].
  assert (Hm : dict_get (opt_extra o) "to_python" = None)
    by (rewrite Hextra; reflexivity).
  assert (Htab : dict_get (opt_extra o) "typemap" = None)
    by (rewrite Hextra; reflexivity).
  destruct (opt_type o) as [| | | |t| | | |] eqn:Ht; try discriminate.
  exists t. split; [reflexivity|].
  unfold type_known, typemap_getitem, dict_getitem in Hall.
  rewrite Ht in Hall.
  destruct (existsb (String.eqb name) settings_of_unknown_type);
    destruct (dict_get typemap t) as [f|] eqn:Hf;
    cbn [negb Bool.eqb] in Hall; try discriminate.
  - split; [reflexivity|]. apply to_python_unknown_type; assumption.
  - exists f. split; [reflexivity|].
    apply to_python_dispatch with (t := t); assumption.
Qed.

Lemma to_python_registered_witness :
  exists t,
    VStr "str" = VStr t
    /\ dict_get typemap t = None
    /\ to_python (fun _ v => Ok v) (Option_init VNone [kw_type "str"])
                 (VStr "gzip")
       = Raise (KeyError (VStr t)).
Proof.
  apply (to_python_registered (fun _ v => Ok v) "result_compression"
           (Option_init VNone [kw_type "str"]) (VStr "gzip")).
  apply (nth_error_In _ 60). vm_compute. reflexivity.
Defined.

(** ** The resolver: which entry answers *)

Lemma dict_get_In {V} (d : list (string * V)) k v :
  dict_get d k = Some v -> In (k, v) d.
Proof.
  induction d as [|[k' v'] rest IH]; simpl; [discriminate|].
  destruct (String.eqb_spec k' k) as [->|_].
  - intros [= ->]. left. reflexivity.
  - intros H. right. apply IH. exact H.
Qed.

Lemma NAMESPACES_top_lowercase k e :
  In (k, e) NAMESPACES -> lower k = k.
Proof.
  assert (H : forallb (fun p => String.eqb (lower (fst p)) (fst p))
                      NAMESPACES = true) by (vm_compute; reflexivity).
  rewrite forallb_forall in H. intros Hin.
  apply String.eqb_eq. exact (H _ Hin).
Qed.

Lemma find_loop_sound its name r :
  find_loop its name = Ok (Some r) ->
  (sr_namespace r = None
   /\ lower (sr_key r) = lower name
   /\ exists keys, In (sr_key r, keys) its /\ sr_type r = FEntry keys)
  \/ (sr_key r = lower name
      /\ exists ns d v,
           sr_namespace r = Some ns /\ In (ns, EDict d) its
           /\ dict_get d (lower name) = Some v /\ sr_type r = FEntry v).
Proof.
  induction its as [|[ns keys] rest IH]; simpl; [discriminate|].
  destruct (String.eqb_spec (lower ns) (lower name)) as [Heq|_].
  - intros [= <-]. left. simpl. repeat split; [exact Heq|].
    exists keys. split; [left|]; reflexivity.
  - assert (Hrest : find_loop rest name = Ok (Some r) ->
      (sr_namespace r = None
       /\ lower (sr_key r) = lower name
       /\ exists keys0, In (sr_key r, keys0) ((ns, keys) :: rest)
                        /\ sr_type r = FEntry keys0)
      \/ (sr_key r = lower name
          /\ exists ns0 d v,
               sr_namespace r = Some ns0
               /\ In (ns0, EDict d) ((ns, keys) :: rest)
               /\ dict_get d (lower name) = Some v /\ sr_type r = FEntry v)).
    { intros H. destruct (IH H) as [[Hn [Hk [keys0 [Hin Ht]]]]
                                   |[Hk [ns0 [d [v [Hn [Hin [Hg Ht]]]]]]]].
      - left. repeat split; try assumption. exists keys0.
        split; [right|]; assumption.
      - right. split; [assumption|]. exists ns0, d, v.
        repeat split; try assumption. right. assumption. }
    destruct keys as [o|d]; [exact Hrest|].
    unfold dict_getitem.
    destruct (dict_get d (lower name)) as [v|] eqn:Hg; [|exact Hrest].
    intros [= <-]. right. simpl. split; [reflexivity|].
    exists ns, d, v. repeat split; try assumption. left. reflexivity.
Qed.

Lemma find_in_sound NS DEF name namespace r :
  find_in NS DEF name namespace = Ok r ->
  (sr_key r = lower name
   /\ exists ns d v,
        sr_namespace r = Some ns /\ In (ns, EDict d) NS
        /\ dict_get d (lower name) = Some v /\ sr_type r = FEntry v)
  \/ (sr_namespace r = None
      /\ lower (sr_key r) = lower name
      /\ exists keys, In (sr_key r, keys) NS /\ sr_type r = FEntry keys)
  \/ (sr_namespace r = None
      /\ sr_key r = lower name
      /\ exists v, DEF !! lower name = Some v /\ sr_type r = FDefault v).
Proof.
  unfold find_in, dict_getitem.
  assert (Hfall :
    (r0 <-- find_loop NS name ;;
     match r0 with
     | Some r1 => Ok r1
     | None =>
         v <-- match DEF !! lower name with
               | Some v => Ok v
               | None => Raise (KeyError (VStr (lower name)))
               end ;;
         Ok (mksearchresult None (lower name) (FDefault v))
     end) = Ok r ->
    (sr_key r = lower name
     /\ exists ns d v,
          sr_namespace r = Some ns /\ In (ns, EDict d) NS
          /\ dict_get d (lower name) = Some v /\ sr_type r = FEntry v)
    \/ (sr_namespace r = None
        /\ lower (sr_key r) = lower name
        /\ exists keys, In (sr_key r, keys) NS /\ sr_type r = FEntry keys)
    \/ (sr_namespace r = None
        /\ sr_key r = lower name
        /\ exists v, DEF !! lower name = Some v /\ sr_type r = FDefault v)).
  { destruct (find_loop_Ok NS name) as [[r1|] Hr]; rewrite Hr; simpl.
    - intros [= ->]. destruct (find_loop_sound _ _ _ Hr) as [H|H]; tauto.
    - destruct (DEF !! lower name) as [v|]; simpl; [|discriminate].
      intros [= <-]. right. right. simpl. eauto. }
  destruct (dict_get NS (lower namespace)) as [[o|d]|] eqn:Hns;
    cbn [rbind entry_getitem]; [discriminate| |exact Hfall].
  unfold dict_getitem.
  destruct (dict_get d (lower name)) as [v|] eqn:Hg; [|exact Hfall].
  intros [= <-]. left. simpl. split; [reflexivity|].
  exists (lower namespace), d, v. repeat split; try assumption.
  apply dict_get_In. exact Hns.
Qed.

(** Whatever [find] returns is in the schema: a value found under
    [name] (lowercased) in a namespace of [NAMESPACES], returned with
    that namespace; or the top-level entry of that name, returned whole;
    or the [DEFAULTS] value of that name.  The key returned is the
    lowercased name. *)
Theorem find_sound name namespace r :
  find name namespace = Ok r ->
  sr_key r = lower name
  /\ ((exists ns d v,
         sr_namespace r = Some ns /\ In (ns, EDict d) NAMESPACES
         /\ dict_get d (lower name) = Some v /\ sr_type r = FEntry v)
      \/ (sr_namespace r = None
          /\ exists keys, In (lower name, keys) NAMESPACES
                          /\ sr_type r = FEntry keys)
      \/ (sr_namespace r = None
          /\ exists v, DEFAULTS !! lower name = Some v
                       /\ sr_type r = FDefault v)).
Proof.
  intros H. apply find_in_sound in H.
  destruct H as [[Hk H]|[[Hn [Hk [keys [Hin Ht]]]]|[Hn [Hk H]]]].
  - split; [exact Hk|]. left. exact H.
  - assert (Hkey : sr_key r = lower name).
    { rewrite <- Hk. symmetry. apply (NAMESPACES_top_lowercase _ _ Hin). }
    split; [exact Hkey|]. right. left. split; [exact Hn|].
    exists keys. rewrite <- Hkey. split; assumption.
  - split; [exact Hk|]. right. right. split; assumption.
Qed.

Lemma find_sound_witness :
  let r := mksearchresult (Some "redis") "port"
             (FEntry (EOption (Option_init VNone [kw_type "int"]))) in
  sr_key r = lower "PORT"
  /\ ((exists ns d v,
         sr_namespace r = Some ns /\ In (ns, EDict d) NAMESPACES
         /\ dict_get d (lower "PORT") = Some v /\ sr_type r = FEntry v)
      \/ (sr_namespace r = None
          /\ exists keys, In (lower "PORT", keys) NAMESPACES
                          /\ sr_type r = FEntry keys)
      \/ (sr_namespace r = None
          /\ exists v, DEFAULTS !! lower "PORT" = Some v
                       /\ sr_type r = FDefault v)).
Proof.
  apply (find_sound "PORT" "Redis"). vm_compute. reflexivity.
Defined.

Lemma find_KeyError_iff_witness :
  (find "No_Such" "Broker" = Raise (KeyError (VStr (lower "No_Such")))
   <-> matches_some_strategy NAMESPACES DEFAULTS "No_Such" "Broker" = false)
  /\ (forall e, find "No_Such" "Broker" = Raise e ->
                e = KeyError (VStr (lower "No_Such"))).
Proof. apply (find_KeyError_iff "No_Such" "Broker"). reflexivity. Defined.

(** A key of the namespace given as argument wins over every other
    reading of the name: the result carries that namespace, lowercased,
    and the value found there. *)
Theorem find_direct name namespace d v :
  dict_get NAMESPACES (lower namespace) = Some (EDict d) ->
  dict_get d (lower name) = Some v ->
  find name namespace
  = Ok (mksearchresult (Some (lower namespace)) (lower name) (FEntry v)).
Proof.
  intros Hns Hk. unfold find, find_in, dict_getitem.
  rewrite Hns. cbn [rbind entry_getitem]. unfold dict_getitem.
  rewrite Hk. reflexivity.
Qed.

Lemma find_direct_witness :
  find "Port" "Redis"
  = Ok (mksearchresult (Some "redis") "port"
          (FEntry (EOption (Option_init VNone [kw_type "int"])))).
Proof.
  eapply (find_direct "Port" "Redis"); reflexivity.
Defined.

Lemma find_in_unknown_namespace NS DEF name ns1 ns2 :
  dict_get NS (lower ns1) = None ->
  dict_get NS (lower ns2) = None ->
  find_in NS DEF name ns1 = find_in NS DEF name ns2.
Proof.
  intros H1 H2. unfold find_in, dict_getitem. rewrite H1, H2. reflexivity.
Qed.

(** A namespace argument that names nothing in the tree is ignored:
    the outcome is that of the default namespace. *)
Theorem find_unknown_namespace name namespace :
  dict_get NAMESPACES (lower namespace) = None ->
  find name namespace = find name default_namespace.
Proof.
  intros H. apply find_in_unknown_namespace; [exact H|reflexivity].
Qed.

Lemma find_unknown_namespace_witness :
  find "URL" "No_Such_Namespace" = find "URL" default_namespace.
Proof.
  apply (find_unknown_namespace "URL" "No_Such_Namespace"). reflexivity.
Defined.

(** ** The resolver: declaration order *)

Lemma find_loop_passed_over before rest name :
  Forall (passed_over name) before ->
  find_loop (before ++ rest) name = find_loop rest name.
Proof.
  induction 1 as [|[ns keys] before' [Hname Hkey] _ IH]; [reflexivity|].
  simpl in *. rewrite Hname.
  destruct keys as [o|d]; [exact IH|].
  unfold dict_getitem. simpl in Hkey.
  destruct (dict_get d (lower name)); [discriminate|exact IH].
Qed.

Lemma find_in_fallback NS DEF name namespace :
  flat_namespace NS namespace = false ->
  direct_match NS name namespace = false ->
  find_in NS DEF name namespace
  = (r <-- find_loop NS name ;;
     match r with
     | Some r => Ok r
     | None =>
         v <-- match DEF !! lower name with
               | Some v => Ok v
               | None => Raise (KeyError (VStr (lower name)))
               end ;;
         Ok (mksearchresult None (lower name) (FDefault v))
     end).
Proof.
  unfold flat_namespace, direct_match, find_in, dict_getitem.
  destruct (dict_get NS (lower namespace)) as [[o|d]|];
    cbn [rbind entry_getitem entry_has_key]; [discriminate| |reflexivity].
  unfold dict_getitem.
  destruct (dict_get d (lower name)); [discriminate|reflexivity].
Qed.

(** On any tree, once the direct step has found nothing, the first
    entry in declaration order that is a dict holding the name answers,
    with its own name as namespace, provided no entry before it matches
    and it is not itself called by that name. *)
Theorem find_in_first_dict_with_key
    NS DEF name namespace before ns d v after :
  flat_namespace NS namespace = false ->
  direct_match NS name namespace = false ->
  NS = before ++ (ns, EDict d) :: after ->
  Forall (passed_over name) before ->
  String.eqb (lower ns) (lower name) = false ->
  dict_get d (lower name) = Some v ->
  find_in NS DEF name namespace
  = Ok (mksearchresult (Some ns) (lower name) (FEntry v)).
Proof.
  intros Hflat Hdirect -> Hbefore Hns Hkey.
  rewrite find_in_fallback by assumption.
  rewrite find_loop_passed_over by exact Hbefore.
  simpl. rewrite Hns. unfold dict_getitem. rewrite Hkey. reflexivity.
Qed.

Lemma find_in_first_dict_with_key_witness :
  find_in [("a", EDict [("x", EOption (Option_init (VInt 1) []))]);
           ("b", EDict [("y", EOption (Option_init (VInt 2) []))]);
           ("y", EDict [("z", EOption (Option_init (VInt 3) []))])]
          ∅ "Y" "celery"
  = Ok (mksearchresult (Some "b") (lower "Y")
          (FEntry (EOption (Option_init (VInt 2) [])))).
Proof.
  apply (find_in_first_dict_with_key _ ∅ "Y" "celery"
           [("a", EDict [("x", EOption (Option_init (VInt 1) []))])]
           "b" [("y", EOption (Option_init (VInt 2) []))]
           (EOption (Option_init (VInt 2) []))
           [("y", EDict [("z", EOption (Option_init (VInt 3) []))])]).
  - reflexivity.
  - reflexivity.
  - reflexivity.
  - repeat constructor.
  - reflexivity.
  - reflexivity.
Defined.

(** On any tree, once the direct step has found nothing, the first
    entry in declaration order called by the name answers, returned
    whole and without namespace, provided no entry before it matches. *)
Theorem find_in_first_entry_named
    NS DEF name namespace before ns keys after :
  flat_namespace NS namespace = false ->
  direct_match NS name namespace = false ->
  NS = before ++ (ns, keys) :: after ->
  Forall (passed_over name) before ->
  String.eqb (lower ns) (lower name) = true ->
  find_in NS DEF name namespace
  = Ok (mksearchresult None ns (FEntry keys)).
Proof.
  intros Hflat Hdirect -> Hbefore Hns.
  rewrite find_in_fallback by assumption.
  rewrite find_loop_passed_over by exact Hbefore.
  simpl. rewrite Hns. reflexivity.
Qed.

Lemma find_in_first_entry_named_witness :
  find_in [("a", EDict [("x", EOption (Option_init (VInt 1) []))]);
           ("x", EOption (Option_init (VInt 2) []))]
          ∅ "A" "celery"
  = Ok (mksearchresult None "a"
          (FEntry (EDict [("x", EOption (Option_init (VInt 1) []))]))).
Proof.
  apply (find_in_first_entry_named _ ∅ "A" "celery" [] "a"
           (EDict [("x", EOption (Option_init (VInt 1) []))])
           [("x", EOption (Option_init (VInt 2) []))]).
  - reflexivity.
  - reflexivity.
  - reflexivity.
  - constructor.
  - reflexivity.
Defined.

(** ** The resolver on names of the schema *)

Lemma NAMESPACES_names_resolve :
  map (fun p => find (fst p) default_namespace) NAMESPACES
  = map (fun p => Ok (mksearchresult None (fst p) (FEntry (snd p))))
        NAMESPACES.
Proof. vm_compute. reflexivity. Qed.

(** A top-level name of [NAMESPACES], in any casing, resolves to the
    entry of that name, returned whole: a namespace as its dict, a flat
    setting as its [Option] and not as its default. *)
Theorem find_top_level_name name namespace keys :
  dict_get NAMESPACES (lower namespace) = None ->
  dict_get NAMESPACES (lower name) = Some keys ->
  find name namespace = Ok (mksearchresult None (lower name) (FEntry keys)).
Proof.
  intros Hns Hname. unfold find.
  rewrite (find_in_unknown_namespace _ _ _ namespace default_namespace
             Hns eq_refl).
  rewrite find_in_lower. fold (find (lower name) "celery").
  apply dict_get_In in Hname.
  pose proof NAMESPACES_names_resolve as H.
  rewrite map_ext_in_iff in H. exact (H _ Hname).
Qed.

Lemma find_top_level_name_witness :
  find "TimeZone" "celery"
  = Ok (mksearchresult None (lower "TimeZone")
          (FEntry (EOption (Option_init VNone [kw_type "string"])))).
Proof.
  apply (find_top_level_name "TimeZone" "celery"); reflexivity.
Defined.

Lemma flatten_names_resolve :
  map (fun p => find (fst p) default_namespace) (flatten NAMESPACES "")
  = map (fun p =>
           Ok (mksearchresult None (fst p)
                 match dict_get NAMESPACES (fst p) with
                 | Some keys => FEntry keys
                 | None => FDefault (opt_default (snd p))
                 end))
        (flatten NAMESPACES "").
Proof. vm_compute. reflexivity. Qed.

(** Every name [flatten(NAMESPACES)] yields resolves without a
    namespace: a setting inside a namespace to its default, through
    [DEFAULTS]; a top-level setting to its [Option]. *)
Theorem find_flattened_name name o namespace :
  dict_get NAMESPACES (lower namespace) = None ->
  In (name, o) (flatten NAMESPACES "") ->
  find name namespace
  = Ok (mksearchresult None name
          match dict_get NAMESPACES name with
          | Some keys => FEntry keys
          | None => FDefault (opt_default o)
          end).
Proof.
  intros Hns Hin. unfold find.
  rewrite (find_in_unknown_namespace _ _ _ namespace default_namespace
             Hns eq_refl).
  fold (find name default_namespace).
  pose proof flatten_names_resolve as H.
  rewrite map_ext_in_iff in H. exact (H _ Hin).
Qed.

Lemma find_flattened_name_witness :
  find "worker_lost_wait" "celery"
  = Ok (mksearchresult None "worker_lost_wait" (FDefault (VFloat 100 (-1)))).
Proof.
  apply (find_flattened_name "worker_lost_wait"
           (Option_init (VFloat 100 (-1)) [kw_type "float"]) "celery").
  - reflexivity.
  - apply (nth_error_In _ 126). vm_compute. reflexivity.
Defined.

(** ** The deprecation scan, warning by warning *)

Lemma scan_options_spec options source w :
  scan_options options source w
  = (tt, mkworld (heap w)
           (warnings w
            ++ map warning_of
                   (filter (fun p => deprecated_and_set (heap w) source p)
                           options))).
Proof.
  revert w. induction options as [|[name opt] rest IH]; intros w.
  - simpl. unfold ret. destruct w as [h ws]. simpl.
    rewrite app_nil_r. reflexivity.
  - cbn [scan_options]. unfold bind at 1.
    assert (Hstep : check_deprecated source name opt w
      = (tt, mkworld (heap w)
               (warnings w
                ++ if deprecated_and_set (heap w) source (name, opt)
                   then [warning_of (name, opt)] else []))).
    { unfold check_deprecated, deprecated_and_set, warning_of, bind, getattr,
        warn_deprecated, ret. cbn [fst snd].
      destruct (truthy (py_or (opt_deprecate_by opt) (opt_remove_by opt)));
        cbn [andb].
      - destruct (truthy _); [reflexivity|].
        destruct w as [h ws]. simpl. rewrite app_nil_r. reflexivity.
      - destruct w as [h ws]. simpl. rewrite app_nil_r. reflexivity. }
    rewrite Hstep, IH. cbn [heap warnings].
    rewrite filter_cons.
    destruct (decide (deprecated_and_set (heap w) source (name, opt)))
      as [Hd|Hd].
    + apply Is_true_true in Hd. rewrite Hd.
      cbn [map]. rewrite <- app_assoc. reflexivity.
    + apply Is_true_false in Hd. rewrite Hd.
      rewrite app_nil_r. reflexivity.
Qed.

(** On any tree the scan emits one warning for each yielded option that
    declares [deprecate_by] or [remove_by] and whose name is a truthy
    attribute of the source, in the order [flatten] yields them, and
    changes nothing else. *)
Theorem find_deprecated_settings_in_warnings NS source w :
  find_deprecated_settings_in NS source w
  = (source,
     mkworld (heap w)
       (warnings w
        ++ map warning_of
               (filter (fun p => deprecated_and_set (heap w) source p)
                       (flatten NS "")))).
Proof.
  unfold find_deprecated_settings_in, bind.
  rewrite scan_options_spec. reflexivity.
Qed.

(** No setting of [NAMESPACES] declares [deprecate_by] or [remove_by]:
    on the module's own tree the scan returns the source and leaves the
    world exactly as it found it, whatever the source holds. *)
Theorem find_deprecated_settings_silent source w :
  find_deprecated_settings source w = (source, w).
Proof.
  unfold find_deprecated_settings, find_deprecated_settings_in, bind.
  rewrite scan_options_spec.
  replace (filter (fun p => deprecated_and_set (heap w) source p)
                  (flatten NAMESPACES "")) with (@nil (string * Option)).
  - destruct w as [h ws]. simpl. rewrite app_nil_r. reflexivity.
  - symmetry. pose proof NAMESPACES_nothing_deprecated as Hnone.
    rewrite forallb_forall in Hnone.
    induction (flatten NAMESPACES "") as [|p l IH]; [reflexivity|].
    rewrite filter_cons.
    assert (Hp : deprecated_and_set (heap w) source p = false).
    { unfold deprecated_and_set.
      specialize (Hnone p (or_introl eq_refl)).
      apply negb_true_iff in Hnone. rewrite Hnone. reflexivity. }
    destruct (decide (deprecated_and_set (heap w) source p)) as [Hd|_].
    + rewrite Hp in Hd. destruct Hd.
    + apply IH. intros x Hx. apply Hnone. right. exact Hx.
Qed.
